(** * Alpha-Ledger-Core: the execution simulation engine

    A shallow embedding of the order manager, the cost and slippage
    models, the position sizer, the compliance gate, the trade ledger
    and the bar-by-bar loop of [BacktestEngine.run].

    Modelling conventions.
    - A Python [float] is modelled by the rational number it denotes
      and float arithmetic by exact arithmetic on [Q]; comparisons and
      results are stated up to [==].  The one irrational constant of
      the code, [np.sqrt(252)], is taken at the value numpy returns
      (the binary64 number nearest to the square root).
    - A Python [int] is a [Z], a [str] a [string], a [dict] with string
      keys a [gmap string _] or, when its keys are fixed field names,
      a record whose optional keys are [option] fields.
    - An exception aborts the run: fallible functions return a
      [result].  Reads of the wall clock and of the UUID generator are
      taken from an explicit [World].
    - The prices of a run come from the rows of a DataFrame and are
      [numpy.float64]; so are the equity and the amounts computed from
      them.  On such operands [/] and [//] do not raise on a zero
      divisor: they give [nan] or an infinity.  The functions that
      [run] calls on them are given in [NumpyOperands], beside their
      versions on plain floats.
    - Orders are mutable objects in the source.  Here an order is a
      value; a function that mutates the order it is given returns the
      mutated order.  Calls to [logger] have no effect on the state and
      are left out. *)

From Stdlib Require Import QArith Qround Qminmax Lqa ZArith String List.
From stdpp Require Import gmap strings list fin_maps.

(** ** Python values and control *)

Inductive exn : Type :=
| TypeError
| KeyError
| ZeroDivisionError
| AttributeError
| ValueError
| OverflowError.

Inductive result (A : Type) : Type :=
| Ok (a : A)
| Raise (e : exn).
Arguments Ok {A} a.
Arguments Raise {A} e.

Definition rbind {A B : Type} (c : result A) (k : A -> result B) : result B :=
  match c with
  | Ok a => k a
  | Raise e => Raise e
  end.

Definition datetime : Type := Z.

(** What the run reads from outside: the successive values of
    [datetime.now()] and of [str(uuid.uuid4())[:8]]. *)
Record World : Type := mkWorld {
  clock : nat -> datetime;
  uuids : nat -> string
}.

(** Computations that may raise and may read the world. *)
Definition M (A : Type) : Type := World -> result (A * World).

Definition ret {A : Type} (a : A) : M A := fun w => Ok (a, w).

Definition bind {A B : Type} (c : M A) (k : A -> M B) : M B :=
  fun w => match c w with
           | Ok (a, w') => k a w'
           | Raise e => Raise e
           end.

Definition lift {A : Type} (r : result A) : M A :=
  fun w => match r with
           | Ok a => Ok (a, w)
           | Raise e => Raise e
           end.

Declare Scope py_scope.
Delimit Scope py_scope with py.
Notation "'do' x <- c ; k" := (bind c (fun x => k))
  (at level 10, x pattern, c at level 100, k at level 200) : py_scope.
Notation "'do' x <~ c ; k" := (rbind c (fun x => k))
  (at level 10, x pattern, c at level 100, k at level 200) : py_scope.
Open Scope py_scope.

Definition datetime_now : M datetime :=
  fun w => Ok (clock w 0%nat,
               mkWorld (fun k => clock w (S k)) (uuids w)).

Definition uuid4_prefix : M string :=
  fun w => Ok (uuids w 0%nat,
               mkWorld (clock w) (fun k => uuids w (S k))).

(** Comparisons of floats. *)
Definition Qltb (x y : Q) : bool :=
  match (x ?= y)%Q with
  | Lt => true
  | _ => false
  end.

Definition Qleb (x y : Q) : bool := Qle_bool x y.

(** [min(a, b)] and [max(a, b)] of Python return the first argument
    unless the second is strictly smaller (resp. larger). *)
Definition py_min (a b : Q) : Q := if Qltb b a then b else a.
Definition py_max (a b : Q) : Q := if Qltb a b then b else a.

(** [a / b] on floats. *)
Definition py_div (a b : Q) : result Q :=
  if Qeq_bool b 0 then Raise ZeroDivisionError else Ok (a / b)%Q.

(** [a // b] on floats: the floor of the quotient. *)
Definition py_floordiv (a b : Q) : result Z :=
  if Qeq_bool b 0 then Raise ZeroDivisionError else Ok (Qfloor (a / b)).

(** An f-string, kept as its literal pieces and formatted fields. *)
Inductive fragment : Type :=
| Lit (s : string)
| FmtInt (n : Z)
| FmtStr (s : string)
| FmtPct1 (x : Q).

Definition message : Type := list fragment.

(** ** execution/fees.py *)

Module TradeCost.
(** The [breakdown] dictionary has exactly these keys. *)
Record breakdown_t : Type := mkBreakdown {
  Turnover : Q;
  Brokerage : Q;
  STT : Q;
  Exchange_Charges : Q;
  Stamp_Duty : Q;
  GST : Q;
  Total_Charges : Q
}.
Record t : Type := mk {
  total_cost : Q;
  breakdown : breakdown_t
}.
End TradeCost.

Module IndianTaxModel.
Local Open Scope Q_scope.

Record t : Type := mk { brokerage : Q }.

(** [IndianTaxModel()] *)
Definition init : t := mk 20.

Definition calculate (self : t) (price : Q) (quantity : Z)
           (side asset_type : string) : TradeCost.t :=
  let turnover := price * inject_Z quantity in
  let brokerage := py_min (turnover * 0.0003) (brokerage self) in
  let stt :=
    if String.eqb asset_type "EQUITY" then turnover * 0.001
    else if String.eqb asset_type "INTRADAY" && String.eqb side "SELL"
         then turnover * 0.00025
         else 0 in
  let exchange_charges := turnover * 0.0000345 in
  let sebi_charges := turnover * 0.000001 in
  let stamp_duty :=
    if String.eqb side "BUY" then turnover * 0.00015 else 0 in
  let gst := (brokerage + exchange_charges + sebi_charges) * 0.18 in
  let total_tax_and_fees :=
    brokerage + stt + exchange_charges + sebi_charges + stamp_duty + gst in
  TradeCost.mk total_tax_and_fees
    (TradeCost.mkBreakdown turnover brokerage stt exchange_charges
                           stamp_duty gst total_tax_and_fees).

(** [asset_type] defaults to ["EQUITY"]. *)
Definition calculate_default (self : t) (price : Q) (quantity : Z)
           (side : string) : TradeCost.t :=
  calculate self price quantity side "EQUITY".
End IndianTaxModel.

(** ** execution/slippage.py *)

Module SlippageModel.
Local Open Scope Q_scope.

Record t : Type := mk { base_slippage : Q }.

Definition init (base_bps : Q) : t := mk (base_bps / 10000).

(** [volatility and volatility > 0.01]: [None] and [0.0] are falsy. *)
Definition volatility_penalty (volatility : option Q) : bool :=
  match volatility with
  | None => false
  | Some v => negb (Qeq_bool v 0) && Qltb 0.01 v
  end.

Definition calculate_fill_price (self : t) (target_price : Q)
           (side : string) (volatility : option Q) : Q :=
  let impact := base_slippage self in
  let impact := if volatility_penalty volatility then impact * 2 else impact in
  if String.eqb side "BUY"
  then target_price * (1 + impact)
  else target_price * (1 - impact).
End SlippageModel.

(** ** risk_engine/sizing.py *)

(** [np.sqrt(252)]: the binary64 number 0x1.fbfbf7ebc755fp+3. *)
Definition np_sqrt_252 : Q := (8936553463969119 # 562949953421312)%Q.

Module PositionSizer.
Local Open Scope Q_scope.

Record t : Type := mk { target_vol : Q }.

Definition init (target_volatility_annual : Q) : t :=
  mk target_volatility_annual.

(** The scalar applied to the capital once the volatility is known to
    be positive. *)
Definition vol_scalar_of (self : t) (recent_volatility_daily : Q) : Q :=
  let target_daily_vol := target_vol self / np_sqrt_252 in
  let vol_scalar := target_daily_vol / recent_volatility_daily in
  py_min vol_scalar 1.

Definition calculate_quantity (self : t) (capital price
           recent_volatility_daily : Q) : result Z :=
  if Qleb recent_volatility_daily 0 then Ok 0%Z
  else
    let vol_scalar := vol_scalar_of self recent_volatility_daily in
    let allocation_amount := capital * vol_scalar in
    py_floordiv allocation_amount price.
End PositionSizer.

(** ** risk_engine/compliance.py *)

Module RiskCompliance.
Local Open Scope Q_scope.

(** The [config] dictionary; an absent key is [None]. *)
Record config_t : Type := mkConfig {
  max_drawdown_limit : option Q;
  max_sector_exposure : option Q;
  max_positions : option Z
}.

Record t : Type := mk {
  max_dd : Q;
  max_sector : Q;
  max_pos : Z
}.

Definition init (config : config_t) : t :=
  mk (default 0.15 (max_drawdown_limit config))
     (default 0.30 (max_sector_exposure config))
     (default 10%Z (max_positions config)).

(** The [current_portfolio] dictionary. *)
Record portfolio_t : Type := mkPortfolio {
  positions : option (gmap string Z);
  current_drawdown : option Q;
  sector_allocation : option (gmap string Q);
  total_equity : option Q
}.

(** The [proposed_trade] dictionary. *)
Record trade_t : Type := mkTrade {
  side : option string;
  sector : option string;
  capital_impact : option Q
}.

(** The returned dictionary [{'allowed': _, 'reason': _}]. *)
Record verdict : Type := mkVerdict {
  allowed : bool;
  reason : message
}.

(** [if target_sector:] holds for a string that is not empty. *)
Definition truthy_sector (target_sector : option string) : option string :=
  match target_sector with
  | Some s => if String.eqb s "" then None else Some s
  | None => None
  end.

Definition max_positions_msg (active_positions max_pos : Z) : message :=
  [Lit "REJECTED: Max positions reached ("; FmtInt active_positions;
   Lit "/"; FmtInt max_pos; Lit ")"].

Definition drawdown_msg (current_dd max_dd : Q) : message :=
  [Lit "REJECTED: Portfolio in critical drawdown ("; FmtPct1 current_dd;
   Lit " > "; FmtPct1 max_dd; Lit "). Trading Halted."].

Definition sector_msg (target_sector : string) (new_exposure max_sector : Q)
  : message :=
  [Lit "REJECTED: Sector Limit Exceeded for "; FmtStr target_sector;
   Lit ". New: "; FmtPct1 new_exposure; Lit ", Limit: ";
   FmtPct1 max_sector].

Definition passed_msg : message := [Lit "Compliance Checks Passed"].

(** [active_positions >= self.max_pos and proposed_trade['side'] == 'ENTRY'];
    the subscript is evaluated only when the first conjunct holds. *)
Definition entry_at_limit (self : t) (active_positions : Z)
           (proposed_trade : trade_t) : result bool :=
  if (max_pos self <=? active_positions)%Z
  then match side proposed_trade with
       | Some s => Ok (String.eqb s "ENTRY")
       | None => Raise KeyError
       end
  else Ok false.

Definition check_trade_permission (self : t) (current_portfolio : portfolio_t)
           (proposed_trade : trade_t) : result verdict :=
  let active_positions :=
    Z.of_nat (size (default (∅ : gmap string Z) (positions current_portfolio))) in
  do at_limit <~ entry_at_limit self active_positions proposed_trade;
  if at_limit
  then Ok (mkVerdict false (max_positions_msg active_positions (max_pos self)))
  else
    let current_dd := default 0 (current_drawdown current_portfolio) in
    if Qltb (max_dd self) current_dd
    then Ok (mkVerdict false (drawdown_msg current_dd (max_dd self)))
    else
      match truthy_sector (sector proposed_trade) with
      | Some target_sector =>
          let current_sector_alloc :=
            default 0
              (default (∅ : gmap string Q) (sector_allocation current_portfolio)
                 !! target_sector) in
          let trade_impact := default 0 (capital_impact proposed_trade) in
          let total_capital := default 1 (total_equity current_portfolio) in
          do ratio <~ py_div trade_impact total_capital;
          let new_exposure := current_sector_alloc + ratio in
          if Qltb (max_sector self) new_exposure
          then Ok (mkVerdict false
                     (sector_msg target_sector new_exposure (max_sector self)))
          else Ok (mkVerdict true passed_msg)
      | None => Ok (mkVerdict true passed_msg)
      end.
End RiskCompliance.

(** ** The sizer and the gate on operands of type [numpy.float64] *)

(** The outcome of a division of [numpy.float64] numbers. *)
Inductive float64 : Type :=
| Finite (x : Q)
| PosInf
| NegInf
| NaN.

(** [a / b]: a zero divisor, taken as [+0.0], gives [nan] for a zero
    dividend and an infinity with the sign of the dividend otherwise. *)
Definition np_div (a b : Q) : float64 :=
  if Qeq_bool b 0
  then if Qeq_bool a 0 then NaN
       else if Qltb 0 a then PosInf else NegInf
  else Finite (a / b)%Q.

(** [a + x] for a finite [a]. *)
Definition np_add (a : Q) (x : float64) : float64 :=
  match x with
  | Finite y => Finite (a + y)%Q
  | PosInf => PosInf
  | NegInf => NegInf
  | NaN => NaN
  end.

(** [x > y] for a finite [y]; every comparison with [nan] is false. *)
Definition np_gt (x : float64) (y : Q) : bool :=
  match x with
  | Finite a => Qltb y a
  | PosInf => true
  | NegInf => false
  | NaN => false
  end.

(** The field [{x:.1%}] of an f-string. *)
Definition fmt_pct1 (x : float64) : fragment :=
  match x with
  | Finite a => FmtPct1 a
  | PosInf => Lit "inf%"
  | NegInf => Lit "-inf%"
  | NaN => Lit "nan%"
  end.

(** [int(a // b)]: [a // b] is [nan] or an infinity on a zero divisor,
    which [int] refuses. *)
Definition np_int_floordiv (a b : Q) : result Z :=
  if Qeq_bool b 0
  then if Qeq_bool a 0 then Raise ValueError else Raise OverflowError
  else Ok (Qfloor (a / b)).

Module NumpyOperands.
Local Open Scope Q_scope.

(** [PositionSizer.calculate_quantity] with a capital and a price of
    type [numpy.float64]. *)
Definition calculate_quantity (self : PositionSizer.t) (capital price
           recent_volatility_daily : Q) : result Z :=
  if Qleb recent_volatility_daily 0 then Ok 0%Z
  else
    let vol_scalar :=
      PositionSizer.vol_scalar_of self recent_volatility_daily in
    let allocation_amount := capital * vol_scalar in
    np_int_floordiv allocation_amount price.

(** [RiskCompliance.check_trade_permission] with a capital impact and a
    total equity of type [numpy.float64]. *)
Definition check_trade_permission (self : RiskCompliance.t)
           (current_portfolio : RiskCompliance.portfolio_t)
           (proposed_trade : RiskCompliance.trade_t)
  : result RiskCompliance.verdict :=
  let active_positions :=
    Z.of_nat (size (default (∅ : gmap string Z)
                      (RiskCompliance.positions current_portfolio))) in
  do at_limit <~
    RiskCompliance.entry_at_limit self active_positions proposed_trade;
  if at_limit
  then Ok (RiskCompliance.mkVerdict false
             (RiskCompliance.max_positions_msg active_positions
                (RiskCompliance.max_pos self)))
  else
    let current_dd :=
      default 0 (RiskCompliance.current_drawdown current_portfolio) in
    if Qltb (RiskCompliance.max_dd self) current_dd
    then Ok (RiskCompliance.mkVerdict false
               (RiskCompliance.drawdown_msg current_dd
                  (RiskCompliance.max_dd self)))
    else
      match RiskCompliance.truthy_sector
              (RiskCompliance.sector proposed_trade) with
      | Some target_sector =>
          let current_sector_alloc :=
            default 0
              (default (∅ : gmap string Q)
                 (RiskCompliance.sector_allocation current_portfolio)
                 !! target_sector) in
          let trade_impact :=
            default 0 (RiskCompliance.capital_impact proposed_trade) in
          let total_capital :=
            default 1 (RiskCompliance.total_equity current_portfolio) in
          let new_exposure :=
            np_add current_sector_alloc (np_div trade_impact total_capital) in
          if np_gt new_exposure (RiskCompliance.max_sector self)
          then Ok (RiskCompliance.mkVerdict false
                     [Lit "REJECTED: Sector Limit Exceeded for ";
                      FmtStr target_sector; Lit ". New: ";
                      fmt_pct1 new_exposure; Lit ", Limit: ";
                      FmtPct1 (RiskCompliance.max_sector self)])
          else Ok (RiskCompliance.mkVerdict true RiskCompliance.passed_msg)
      | None => Ok (RiskCompliance.mkVerdict true RiskCompliance.passed_msg)
      end.
End NumpyOperands.

(** ** execution/order_manager.py *)

Module Order.
Record t : Type := mk {
  symbol : string;
  quantity : Z;
  side : string;
  order_type : string;
  price : option Q;
  id : string;
  status : string;
  fill_price : Q;
  fill_time : option datetime;
  fees : Q
}.

(** [Order(symbol, quantity, side, order_type)] with the defaults of
    the dataclass; the identifier is drawn from the generator. *)
Definition new (symbol : string) (quantity : Z) (side order_type : string)
           (price : option Q) : M t :=
  do id <- uuid4_prefix;
  ret (mk symbol quantity side order_type price id "OPEN" 0%Q None 0%Q).

Definition option_Q_eqb (a b : option Q) : bool :=
  match a, b with
  | Some x, Some y => Qeq_bool x y
  | None, None => true
  | _, _ => false
  end.

Definition option_datetime_eqb (a b : option datetime) : bool :=
  match a, b with
  | Some x, Some y => Z.eqb x y
  | None, None => true
  | _, _ => false
  end.

(** The [__eq__] that [@dataclass] generates: field by field. *)
Definition eqb (a b : t) : bool :=
  String.eqb (symbol a) (symbol b)
  && Z.eqb (quantity a) (quantity b)
  && String.eqb (side a) (side b)
  && String.eqb (order_type a) (order_type b)
  && option_Q_eqb (price a) (price b)
  && String.eqb (id a) (id b)
  && String.eqb (status a) (status b)
  && Qeq_bool (fill_price a) (fill_price b)
  && option_datetime_eqb (fill_time a) (fill_time b)
  && Qeq_bool (fees a) (fees b).

Definition set_status (o : t) (s : string) : t :=
  mk (symbol o) (quantity o) (side o) (order_type o) (price o) (id o)
     s (fill_price o) (fill_time o) (fees o).

(** The four assignments of [_execute_fill]. *)
Definition set_filled (o : t) (p f : Q) (now : datetime) : t :=
  mk (symbol o) (quantity o) (side o) (order_type o) (price o) (id o)
     "FILLED" p (Some now) f.
End Order.

(** A candle of [market_data]: the keys ['open'], ['high'], ['low'] and
    ['close']. *)
Module Candle.
Record t : Type := mk {
  open : Q;
  high : Q;
  low : Q;
  close : Q
}.
End Candle.

(** [l.remove(x)]: deletes the first element equal to [x]. *)
Fixpoint list_remove (x : Order.t) (l : list Order.t) : result (list Order.t) :=
  match l with
  | [] => Raise ValueError
  | y :: l' =>
      if Order.eqb y x then Ok l'
      else do r <~ list_remove x l'; Ok (y :: r)
  end.

(** The limit or stop price as an operand of [<=] or [>=]: comparing a
    float with [None] raises. *)
Definition compared_price (p : option Q) : result Q :=
  match p with
  | Some y => Ok y
  | None => Raise TypeError
  end.

Module OrderManager.
Local Open Scope Q_scope.

Record t : Type := mk {
  open_orders : list Order.t;
  filled_orders : list Order.t;
  slippage_engine : SlippageModel.t;
  cost_engine : IndianTaxModel.t
}.

(** [OrderManager()] *)
Definition init : t :=
  mk [] [] (SlippageModel.init 5) IndianTaxModel.init.

(** Returns the manager, the order as the call leaves it, and its id. *)
Definition place_order (self : t) (order : Order.t)
  : t * Order.t * string :=
  if (Order.quantity order <=? 0)%Z
  then (self, Order.set_status order "REJECTED", Order.id order)
  else (mk (open_orders self ++ [order]) (filled_orders self)
           (slippage_engine self) (cost_engine self),
        order, Order.id order).

(** [order] is the object that the loop took from the copy of
    [self.open_orders]; [remove] looks it up in the list, where it
    stands with the value it had before the four assignments. *)
Definition _execute_fill (self : t) (order : Order.t) (price : Q) : M t :=
  let cost_report :=
    IndianTaxModel.calculate_default (cost_engine self) price
      (Order.quantity order) (Order.side order) in
  do now <- datetime_now;
  let order' :=
    Order.set_filled order price (TradeCost.total_cost cost_report) now in
  do remaining <- lift (list_remove order (open_orders self));
  ret (mk remaining (filled_orders self ++ [order'])
          (slippage_engine self) (cost_engine self)).

(** The fill test of the loop body, which reads [self.slippage_engine]
    only: [(is_fillable, execution_price)]. *)
Definition fill_decision (slippage_engine : SlippageModel.t)
           (order : Order.t) (ticker_data : Candle.t) : result (bool * Q) :=
  let current_price := Candle.close ticker_data in
  let high_price := Candle.high ticker_data in
  let low_price := Candle.low ticker_data in
  if String.eqb (Order.order_type order) "MARKET"
  then Ok (true, SlippageModel.calculate_fill_price slippage_engine
                   current_price (Order.side order) None)
  else if String.eqb (Order.order_type order) "LIMIT"
          && String.eqb (Order.side order) "BUY"
  then
    do limit <~ compared_price (Order.price order);
    if Qleb low_price limit
    then Ok (true, py_min limit (Candle.open ticker_data))
    else Ok (false, 0)
  else if String.eqb (Order.order_type order) "LIMIT"
          && String.eqb (Order.side order) "SELL"
  then
    do limit <~ compared_price (Order.price order);
    if Qleb limit high_price
    then Ok (true, py_max limit (Candle.open ticker_data))
    else Ok (false, 0)
  else if String.eqb (Order.order_type order) "STOP"
  then
    if String.eqb (Order.side order) "BUY"
    then
      do stop <~ compared_price (Order.price order);
      if Qleb stop high_price
      then Ok (true, SlippageModel.calculate_fill_price slippage_engine
                       stop "BUY" None)
      else Ok (false, 0)
    else if String.eqb (Order.side order) "SELL"
    then
      do stop <~ compared_price (Order.price order);
      if Qleb low_price stop
      then Ok (true, SlippageModel.calculate_fill_price slippage_engine
                       stop "SELL" None)
      else Ok (false, 0)
    else Ok (false, 0)
  else Ok (false, 0).

(** The loop of [process_orders] over the copy [self.open_orders[:]]. *)
Fixpoint process_loop (market_data : gmap string Candle.t)
         (snapshot : list Order.t) (self : t) : M t :=
  match snapshot with
  | [] => ret self
  | order :: rest =>
      match market_data !! Order.symbol order with
      | None => process_loop market_data rest self
      | Some ticker_data =>
          do d <- lift (fill_decision (slippage_engine self) order
                          ticker_data);
          do self' <- (if fst d then _execute_fill self order (snd d)
                       else ret self);
          process_loop market_data rest self'
      end
  end.

Definition process_orders (self : t) (market_data : gmap string Candle.t)
  : M t :=
  process_loop market_data (open_orders self) self.
End OrderManager.

(** ** analytics/ledger.py *)

Module TradeRecord.
Record t : Type := mk {
  ticker : string;
  side : string;
  entry_date : option datetime;
  exit_date : option datetime;
  entry_price : Q;
  exit_price : Q;
  quantity : Z;
  fees : Q;
  gross_pnl : Q;
  net_pnl : Q;
  return_pct : Q
}.
End TradeRecord.

Module TradeLedger.
Local Open Scope Q_scope.

Record t : Type := mk { trades : list TradeRecord.t }.

Definition init : t := mk [].

Definition log_trade (self : t) (ticker : string)
           (entry_date exit_date : option datetime)
           (entry_price exit_price : Q) (quantity : Z) (side : string)
           (fees : Q) : result t :=
  let gross_pnl :=
    if String.eqb side "LONG"
    then (exit_price - entry_price) * inject_Z quantity
    else (entry_price - exit_price) * inject_Z quantity in
  let net_pnl := gross_pnl - fees in
  do return_pct <~ (if Qltb 0 entry_price
                    then py_div net_pnl (entry_price * inject_Z quantity)
                    else Ok 0);
  let record :=
    TradeRecord.mk ticker side entry_date exit_date entry_price exit_price
                   quantity fees gross_pnl net_pnl return_pct in
  Ok (mk (trades self ++ [record])).
End TradeLedger.

(** ** main.py *)

(** A row of [backtest_df]: the bar of the day and the signal of the
    strategy for that day. *)
Module Row.
Record t : Type := mk {
  date : datetime;
  open : Q;
  high : Q;
  low : Q;
  close : Q;
  signal : Z
}.
End Row.

Module BacktestEngine.
Local Open Scope Q_scope.

(** The attributes that the loop reads or writes.  [last_entry_price]
    and [last_entry_date] do not exist before the first BUY fill. *)
Record t : Type := mk {
  ticker : string;
  cash : Q;
  equity : Q;
  holdings : Z;
  portfolio_history : list (datetime * Q);
  compliance : RiskCompliance.t;
  sizer : PositionSizer.t;
  oms : OrderManager.t;
  ledger : TradeLedger.t;
  last_entry_price : option Q;
  last_entry_date : option (option datetime)
}.

(** [BacktestEngine(ticker, start, end, initial_capital)] *)
Definition init (ticker : string) (initial_capital : Q) : t :=
  mk ticker initial_capital 0 0%Z []
     (RiskCompliance.init
        (RiskCompliance.mkConfig (Some 0.20) (Some 1.0) None))
     (PositionSizer.init 0.20)
     OrderManager.init TradeLedger.init None None.

Definition set_oms (self : t) (o : OrderManager.t) : t :=
  mk (ticker self) (cash self) (equity self) (holdings self)
     (portfolio_history self) (compliance self) (sizer self) o
     (ledger self) (last_entry_price self) (last_entry_date self).

(** Reading an attribute that was never assigned. *)
Definition getattr {A : Type} (a : option A) : result A :=
  match a with
  | Some x => Ok x
  | None => Raise AttributeError
  end.

Definition _handle_fill (self : t) (order : Order.t) : result t :=
  let cost := inject_Z (Order.quantity order) * Order.fill_price order in
  if String.eqb (Order.side order) "BUY"
  then
    Ok (mk (ticker self)
           (cash self - (cost + Order.fees order))
           (equity self)
           (holdings self + Order.quantity order)%Z
           (portfolio_history self) (compliance self) (sizer self)
           (oms self) (ledger self)
           (Some (Order.fill_price order))
           (Some (Order.fill_time order)))
  else if String.eqb (Order.side order) "SELL"
  then
    let cash' := cash self + (cost - Order.fees order) in
    let holdings' := (holdings self - Order.quantity order)%Z in
    do entry_date <~ getattr (last_entry_date self);
    do entry_price <~ getattr (last_entry_price self);
    do ledger' <~ TradeLedger.log_trade (ledger self) (ticker self)
                    entry_date (Order.fill_time order) entry_price
                    (Order.fill_price order) (Order.quantity order)
                    "LONG" (Order.fees order);
    Ok (mk (ticker self) cash' (equity self) holdings'
           (portfolio_history self) (compliance self) (sizer self)
           (oms self) ledger'
           (last_entry_price self) (last_entry_date self))
  else Ok self.

(** [while self.oms.filled_orders: ... pop(0) ... _handle_fill(...)];
    [_handle_fill] leaves the queue alone, so the loop runs once per
    queued order, front first. *)
Fixpoint drain_fills (queue : list Order.t) (self : t) : result t :=
  match queue with
  | [] => Ok self
  | filled_order :: queue' =>
      let self1 :=
        set_oms self
          (OrderManager.mk (OrderManager.open_orders (oms self)) queue'
             (OrderManager.slippage_engine (oms self))
             (OrderManager.cost_engine (oms self))) in
      do self2 <~ _handle_fill self1 filled_order;
      drain_fills queue' self2
  end.

(** [self.equity] and [price] are [numpy.float64] here: the price is
    the close of a row and the equity was marked to it. *)
Definition _place_entry_order (self : t) (price : Q) (row_data : Row.t)
           (side : string) : M t :=
  let vol := 0.015 in
  do target_qty <-
    lift (NumpyOperands.calculate_quantity (sizer self) (equity self)
            price vol);
  let portfolio_state :=
    RiskCompliance.mkPortfolio
      (Some (if (0 <? holdings self)%Z
             then {[ "dummy"%string := 1%Z ]}
             else ∅))
      (Some 0) None (Some (equity self)) in
  let trade_proposal :=
    RiskCompliance.mkTrade (Some "ENTRY"%string) (Some "Tech"%string)
      (Some (inject_Z target_qty * price)) in
  do check <-
    lift (NumpyOperands.check_trade_permission (compliance self)
            portfolio_state trade_proposal);
  if RiskCompliance.allowed check && (0 <? target_qty)%Z
  then
    do order <- Order.new (ticker self) target_qty "BUY" "MARKET" None;
    ret (set_oms self (OrderManager.place_order (oms self) order).1.1)
  else ret self.

Definition _place_exit_order (self : t) (price : Q) (side : string) : M t :=
  do order <- Order.new (ticker self) (holdings self) "SELL" "MARKET" None;
  ret (set_oms self (OrderManager.place_order (oms self) order).1.1).

(** A. Market simulation: the bar of the day is sent to the order
    manager and the queue of filled orders is emptied into the
    portfolio. *)
Definition market_snapshot (self : t) (row : Row.t)
  : gmap string Candle.t :=
  {[ ticker self :=
       Candle.mk (Row.open row) (Row.high row) (Row.low row)
                 (Row.close row) ]}.

Definition market_simulation (self : t) (row : Row.t) : M t :=
  do oms' <- OrderManager.process_orders (oms self)
               (market_snapshot self row);
  lift (drain_fills (OrderManager.filled_orders oms') (set_oms self oms')).

(** B. Mark to market. *)
Definition mark_to_market (self : t) (row : Row.t) : t :=
  let equity' := cash self + inject_Z (holdings self) * Row.close row in
  mk (ticker self) (cash self) equity' (holdings self)
     (portfolio_history self ++ [(Row.date row, equity')])
     (compliance self) (sizer self) (oms self) (ledger self)
     (last_entry_price self) (last_entry_date self).

(** C. Trading logic. *)
Definition trading_logic (self : t) (row : Row.t) : M t :=
  let current_price := Row.close row in
  match OrderManager.open_orders (oms self) with
  | [] =>
      let signal := Row.signal row in
      if (signal =? 1)%Z && (holdings self =? 0)%Z
      then _place_entry_order self current_price row "LONG"
      else if (signal =? -1)%Z && (holdings self =? 0)%Z
      then ret self
      else if (0 <? holdings self)%Z
      then if (signal =? -1)%Z
           then _place_exit_order self current_price "SELL"
           else ret self
      else ret self
  | _ :: _ => ret self
  end.

(** The body of [for date, row in backtest_df.iterrows()]. *)
Definition loop_body (self : t) (row : Row.t) : M t :=
  do self1 <- market_simulation self row;
  trading_logic (mark_to_market self1 row) row.

(** The simulation loop of [run] over the rows of [backtest_df]. *)
Fixpoint simulation_loop (rows : list Row.t) (self : t) : M t :=
  match rows with
  | [] => ret self
  | row :: rows' =>
      do self' <- loop_body self row;
      simulation_loop rows' self'
  end.
End BacktestEngine.

(** ** fundamentals/forensics.py *)

(** [d[k]] on a dictionary of numbers. *)
Definition getitem (d : gmap string Q) (k : string) : result Q :=
  match d !! k with
  | Some x => Ok x
  | None => Raise KeyError
  end.

(** The nearest integer, ties to the even one. *)
Definition round_half_even (x : Q) : Z :=
  let f := Qfloor x in
  let d := (x - inject_Z f)%Q in
  if Qltb d (1 # 2) then f
  else if Qltb (1 # 2) d then (f + 1)%Z
  else if Z.even f then f else (f + 1)%Z.

(** [round(x, 2)] *)
Definition py_round2 (x : Q) : Q :=
  (inject_Z (round_half_even (x * 100)) / 100)%Q.

Module ForensicAccountant.
Local Open Scope Q_scope.

(** The body of the [try] block of [calculate_piotroski_f_score]. *)
Definition piotroski_body (financials : gmap string Q) : result Z :=
  let score := 0%Z in
  do net_income <~ getitem financials "net_income";
  do op_cash_flow <~ getitem financials "operating_cashflow";
  do roa <~ getitem financials "return_on_assets";
  do long_term_debt <~ getitem financials "long_term_debt";
  do current_ratio <~ getitem financials "current_ratio";
  do shares_outstanding <~ getitem financials "shares_outstanding";
  do gross_margin <~ getitem financials "gross_margin";
  do asset_turnover <~ getitem financials "asset_turnover";
  let score := (score + if Qltb 0 net_income then 1 else 0)%Z in
  let score := (score + if Qltb 0 op_cash_flow then 1 else 0)%Z in
  do prev_roa <~ getitem financials "prev_roa";
  let score := (score + if Qltb prev_roa roa then 1 else 0)%Z in
  let score := (score + if Qltb net_income op_cash_flow then 1 else 0)%Z in
  do prev_long_term_debt <~ getitem financials "prev_long_term_debt";
  let score :=
    (score + if Qltb long_term_debt prev_long_term_debt then 1 else 0)%Z in
  do prev_current_ratio <~ getitem financials "prev_current_ratio";
  let score :=
    (score + if Qltb prev_current_ratio current_ratio then 1 else 0)%Z in
  do prev_shares_outstanding <~ getitem financials "prev_shares_outstanding";
  let score :=
    (score + if Qleb shares_outstanding prev_shares_outstanding
             then 1 else 0)%Z in
  do prev_gross_margin <~ getitem financials "prev_gross_margin";
  let score :=
    (score + if Qltb prev_gross_margin gross_margin then 1 else 0)%Z in
  do prev_asset_turnover <~ getitem financials "prev_asset_turnover";
  let score :=
    (score + if Qltb prev_asset_turnover asset_turnover then 1 else 0)%Z in
  Ok score.

(** [except KeyError: return 0]; any other exception goes through. *)
Definition calculate_piotroski_f_score (financials : gmap string Q)
  : result Z :=
  match piotroski_body financials with
  | Ok score => Ok score
  | Raise KeyError => Ok 0%Z
  | Raise e => Raise e
  end.

(** The body of the [try] block of [calculate_beneish_m_score]. *)
Definition beneish_body (financials : gmap string Q) : result Q :=
  do receivables <~ getitem financials "receivables";
  do revenue <~ getitem financials "revenue";
  do days_sales <~ py_div receivables revenue;
  do prev_receivables <~ getitem financials "prev_receivables";
  do prev_revenue <~ getitem financials "prev_revenue";
  do prev_days_sales <~ py_div prev_receivables prev_revenue;
  do dsri <~ py_div days_sales prev_days_sales;
  do prev_gross_margin <~ getitem financials "prev_gross_margin";
  do gross_margin <~ getitem financials "gross_margin";
  do gmi <~ py_div prev_gross_margin gross_margin;
  do revenue' <~ getitem financials "revenue";
  do prev_revenue' <~ getitem financials "prev_revenue";
  do sgi <~ py_div revenue' prev_revenue';
  do leverage <~ getitem financials "leverage";
  do prev_leverage <~ getitem financials "prev_leverage";
  do lvgi <~ py_div leverage prev_leverage;
  Ok (-4.84 + 0.92 * dsri + 0.528 * gmi + 0.892 * sgi + 0.462 * lvgi).

(** [except Exception: return 0.0] *)
Definition calculate_beneish_m_score (financials : gmap string Q) : Q :=
  match beneish_body financials with
  | Ok m_score => m_score
  | Raise _ => 0
  end.

(** The dictionary that [analyze_health] returns. *)
Record report : Type := mkReport {
  ticker : string;
  f_score : Z;
  m_score : Q;
  verdict : string
}.

Definition analyze_health (ticker : string) (financials : gmap string Q)
  : result report :=
  do f_score <~ calculate_piotroski_f_score financials;
  let m_score := calculate_beneish_m_score financials in
  let verdict := "PASS"%string in
  let verdict :=
    if (f_score <? 4)%Z then "WEAK_FUNDAMENTALS"%string else verdict in
  let verdict :=
    if Qltb (-1.78) m_score then "POSSIBLE_FRAUD"%string else verdict in
  Ok (mkReport ticker f_score (py_round2 m_score) verdict).
End ForensicAccountant.

(** ** macro/regime.py *)

Module MacroRegime.
Local Open Scope Q_scope.

(** The dictionary that [get_regime] returns; the key ['vix'] is absent
    from the one built in the [except] branch. *)
Record state : Type := mkState {
  regime : string;
  vix : option Q;
  allow_longs : bool
}.

(** [fetched] stands for the outcome of the download and of the mean of
    its last row of closes: that mean, or the exception raised on the
    way. *)
Definition get_regime (fetched : result Q) : state :=
  match fetched with
  | Ok vix_level =>
      let regime :=
        if Qltb 22 vix_level then "HIGH_VOLATILITY_PANIC"%string
        else if Qltb vix_level 12 then "LOW_VOLATILITY_COMPLACENCY"%string
        else "NORMAL"%string in
      mkState regime (Some vix_level)
              (negb (String.eqb regime "HIGH_VOLATILITY_PANIC"))
  | Raise _ => mkState "UNKNOWN" None true
  end.
End MacroRegime.

(** ** data_pipeline/screener.py *)

Module UniverseSelector.
Local Open Scope Q_scope.

Definition mock_financials : gmap string Q :=
  list_to_map
    [("net_income", 100); ("operating_cashflow", 120);
     ("return_on_assets", 0.15); ("prev_roa", 0.12);
     ("long_term_debt", 50); ("prev_long_term_debt", 60);
     ("receivables", 1000); ("revenue", 5000);
     ("prev_receivables", 800); ("prev_revenue", 4000);
     ("gross_margin", 0.3); ("prev_gross_margin", 0.28);
     ("current_ratio", 1.5); ("prev_current_ratio", 1.4);
     ("shares_outstanding", 100); ("prev_shares_outstanding", 100);
     ("asset_turnover", 1.1); ("prev_asset_turnover", 1.0);
     ("leverage", 0.5); ("prev_leverage", 0.5)]%string.

(** The audit loop over [self.stock_list]. *)
Fixpoint audit_loop (stock_list shortlist : list string)
  : result (list string) :=
  match stock_list with
  | [] => Ok shortlist
  | ticker :: rest =>
      do health_report <~
        ForensicAccountant.analyze_health ticker mock_financials;
      if String.eqb (ForensicAccountant.verdict health_report) "PASS"
      then audit_loop rest (shortlist ++ [ticker])
      else audit_loop rest shortlist
  end.

Definition generate_shortlist (stock_list : list string) (fetched : result Q)
  : result (list string) :=
  let macro_state := MacroRegime.get_regime fetched in
  if negb (MacroRegime.allow_longs macro_state) then Ok []
  else audit_loop stock_list [].
End UniverseSelector.

(** * Vocabulary of the statements *)

(** The first check of the compliance gate lets the trade through: the
    portfolio is below the position limit, or the trade is not an
    entry. *)
Definition below_limit_or_not_entry (self : RiskCompliance.t)
           (current_portfolio : RiskCompliance.portfolio_t)
           (proposed_trade : RiskCompliance.trade_t) : Prop :=
  (Z.of_nat (size (default (∅ : gmap string Z)
                     (RiskCompliance.positions current_portfolio)))
   < RiskCompliance.max_pos self)%Z
  \/ exists s, RiskCompliance.side proposed_trade = Some s
               /\ s <> "ENTRY"%string.

(** A portfolio of ten positions (scenario 4 of the specification). *)
Definition ten_positions : gmap string Z :=
  list_to_map
    [("A", 1); ("B", 1); ("C", 1); ("D", 1); ("E", 1);
     ("F", 1); ("G", 1); ("H", 1); ("I", 1); ("J", 1)]%Z%string.

(** An order carries the price that its type requires. *)
Definition well_formed (o : Order.t) : Prop :=
  Order.order_type o = "MARKET"%string \/ is_Some (Order.price o).

(** The bar of [market_data] fills the order. *)
Definition fills_on (eng : SlippageModel.t) (market_data : gmap string Candle.t)
           (o : Order.t) : bool :=
  match market_data !! Order.symbol o with
  | Some ticker_data =>
      match OrderManager.fill_decision eng o ticker_data with
      | Ok (true, _) => true
      | _ => false
      end
  | None => false
  end.

(** Evaluating the order against the bar raises. *)
Definition raises_on (eng : SlippageModel.t) (market_data : gmap string Candle.t)
           (o : Order.t) : bool :=
  match market_data !! Order.symbol o with
  | Some ticker_data =>
      match OrderManager.fill_decision eng o ticker_data with
      | Raise _ => true
      | Ok _ => false
      end
  | None => false
  end.

(** [f] is the order [o] as [_execute_fill] leaves it after a fill
    against [market_data]. *)
Definition fill_of (eng : SlippageModel.t) (cost : IndianTaxModel.t)
           (market_data : gmap string Candle.t) (o f : Order.t) : Prop :=
  exists ticker_data p now,
    market_data !! Order.symbol o = Some ticker_data
    /\ OrderManager.fill_decision eng o ticker_data = Ok (true, p)
    /\ f = Order.set_filled o p
             (TradeCost.total_cost
                (IndianTaxModel.calculate_default cost p (Order.quantity o)
                   (Order.side o)))
             now.

(** The world after one reading of the clock. *)
Definition tick (w : World) : World :=
  mkWorld (fun k => clock w (S k)) (uuids w).

(** The states of an order manager that its own methods produce. *)
Inductive reachable : OrderManager.t -> Prop :=
| reachable_init : reachable OrderManager.init
| reachable_place_order (self : OrderManager.t) (order : Order.t) :
    reachable self ->
    reachable (OrderManager.place_order self order).1.1
| reachable_process_orders (self self' : OrderManager.t)
    (market_data : gmap string Candle.t) (w w' : World) :
    reachable self ->
    OrderManager.process_orders self market_data w = Ok (self', w') ->
    reachable self'
| reachable_pop_filled (self : OrderManager.t) :
    reachable self ->
    reachable (OrderManager.mk (OrderManager.open_orders self)
                 (tail (OrderManager.filled_orders self))
                 (OrderManager.slippage_engine self)
                 (OrderManager.cost_engine self)).




(** Three bars: a long signal, a short signal, a flat day. *)
Definition round_trip_rows : list Row.t :=
  [Row.mk 1%Z 100%Q 100%Q 100%Q 100%Q 1%Z;
   Row.mk 2%Z 100%Q 100%Q 100%Q 100%Q (-1)%Z;
   Row.mk 3%Z 110%Q 110%Q 110%Q 110%Q 0%Z].

(** Sample data for the examples. *)
Definition sample_world : World :=
  mkWorld (fun k => Z.of_nat k) (fun k => String (Ascii.ascii_of_nat (97 + k)) "").

Definition sample_limit_buy : Order.t :=
  Order.mk "RELIANCE.NS" 10 "BUY" "LIMIT" (Some 100%Q) "a1b2c3d4" "OPEN"
           0%Q None 0%Q.

Definition sample_bar : Candle.t := Candle.mk 98%Q 101%Q 97%Q 100%Q.

Definition sample_market : gmap string Candle.t :=
  {[ "RELIANCE.NS"%string := sample_bar ]}.

Definition sample_book : OrderManager.t :=
  OrderManager.mk [sample_limit_buy] [] (SlippageModel.init 5%Q)
                  IndianTaxModel.init.

Definition sample_null_order : Order.t :=
  Order.mk "RELIANCE.NS" 0 "BUY" "MARKET" None "e5f6a7b8" "OPEN" 0%Q None 0%Q.

Definition sample_limit_sell : Order.t :=
  Order.mk "RELIANCE.NS" 10 "SELL" "LIMIT" (Some 100%Q) "c9d0e1f2" "OPEN"
           0%Q None 0%Q.

Definition sample_stop_buy : Order.t :=
  Order.mk "RELIANCE.NS" 10 "BUY" "STOP" (Some 100%Q) "0a1b2c3d" "OPEN"
           0%Q None 0%Q.

Definition sample_stop_sell : Order.t :=
  Order.mk "RELIANCE.NS" 10 "SELL" "STOP" (Some 100%Q) "4e5f6a7b" "OPEN"
           0%Q None 0%Q.

Definition sample_market_sell : Order.t :=
  Order.mk "RELIANCE.NS" 10 "SELL" "MARKET" None "8c9d0e1f" "OPEN"
           0%Q None 0%Q.

Definition sample_unpriced_limit : Order.t :=
  Order.mk "RELIANCE.NS" 10 "BUY" "LIMIT" None "2a3b4c5d" "OPEN"
           0%Q None 0%Q.

Definition book_of (orders : list Order.t) : OrderManager.t :=
  OrderManager.mk orders [] (SlippageModel.init 5%Q) IndianTaxModel.init.

(** The order is compared with a bar although it has no price: a LIMIT
    or STOP order, on the BUY or the SELL side, without a price, whose
    symbol has a bar in [market_data]. *)
Definition compared_without_price (market_data : gmap string Candle.t)
           (o : Order.t) : Prop :=
  is_Some (market_data !! Order.symbol o)
  /\ Order.price o = None
  /\ (Order.order_type o = "LIMIT"%string \/ Order.order_type o = "STOP"%string)
  /\ (Order.side o = "BUY"%string \/ Order.side o = "SELL"%string).




(** The keys that the two scores read. *)
Definition piotroski_keys : list string :=
  ["net_income"; "operating_cashflow"; "return_on_assets"; "long_term_debt";
   "current_ratio"; "shares_outstanding"; "gross_margin"; "asset_turnover";
   "prev_roa"; "prev_long_term_debt"; "prev_current_ratio";
   "prev_shares_outstanding"; "prev_gross_margin";
   "prev_asset_turnover"]%string.

Definition beneish_keys : list string :=
  ["receivables"; "revenue"; "prev_receivables"; "prev_revenue";
   "prev_gross_margin"; "gross_margin"; "leverage"; "prev_leverage"]%string.

(** * Properties *)

(** ** Comparisons, [min] and [max] *)

Lemma Qltb_lt (x y : Q) : Qltb x y = true <-> (x < y)%Q.
Proof.
  unfold Qltb. rewrite Qlt_alt.
  destruct (x ?= y)%Q; split; congruence.
Qed.

Lemma Qltb_ge (x y : Q) : Qltb x y = false <-> (y <= x)%Q.
Proof.
  split; intros H.
  - apply Qnot_lt_le. intros Hlt. apply Qltb_lt in Hlt. congruence.
  - destruct (Qltb x y) eqn:E; [|reflexivity].
    apply Qltb_lt in E. exfalso. apply (Qlt_not_le _ _ E H).
Qed.

Lemma Qleb_le (x y : Q) : Qleb x y = true <-> (x <= y)%Q.
Proof. apply Qle_bool_iff. Qed.

Lemma Qleb_gt (x y : Q) : Qleb x y = false <-> (y < x)%Q.
Proof.
  split; intros H.
  - apply Qnot_le_lt. intros Hle. apply Qleb_le in Hle. congruence.
  - destruct (Qleb x y) eqn:E; [|reflexivity].
    apply Qleb_le in E. exfalso. apply (Qlt_not_le _ _ H E).
Qed.

Lemma Qeq_bool_false (x y : Q) : Qeq_bool x y = false <-> ~ (x == y)%Q.
Proof.
  split; intros H.
  - intros E. apply Qeq_bool_iff in E. congruence.
  - destruct (Qeq_bool x y) eqn:E; [|reflexivity].
    apply Qeq_bool_iff in E. contradiction.
Qed.

Lemma py_min_le_l (a b : Q) : (py_min a b <= a)%Q.
Proof.
  unfold py_min. destruct (Qltb b a) eqn:E.
  - apply Qltb_lt in E. apply Qlt_le_weak, E.
  - apply Qle_refl.
Qed.

Lemma py_min_le_r (a b : Q) : (py_min a b <= b)%Q.
Proof.
  unfold py_min. destruct (Qltb b a) eqn:E.
  - apply Qle_refl.
  - apply Qltb_ge in E. exact E.
Qed.

(** Python's [min] is the minimum of the rationals. *)
Lemma py_min_Qmin (a b : Q) : (py_min a b == Qmin a b)%Q.
Proof.
  unfold py_min. destruct (Qltb b a) eqn:E.
  - apply Qltb_lt in E. symmetry. apply Q.min_r. apply Qlt_le_weak, E.
  - apply Qltb_ge in E. symmetry. apply Q.min_l. exact E.
Qed.

Lemma py_max_Qmax (a b : Q) : (py_max a b == Qmax a b)%Q.
Proof.
  unfold py_max. destruct (Qltb a b) eqn:E.
  - apply Qltb_lt in E. symmetry. apply Q.max_r. apply Qlt_le_weak, E.
  - apply Qltb_ge in E. symmetry. apply Q.max_l. exact E.
Qed.

(** ** The cost model *)

Section CostModel.
Local Open Scope Q_scope.
Import TradeCost.

(** C4. [calculate] returns the brokerage, the transaction tax, the
    exchange fee, the stamp duty and the consumption tax that the
    schedule prescribes; the regulatory fee, turnover times 0.000001,
    enters the consumption tax and the total; the total is the sum of
    the six components; a turnover of 100000 on an EQUITY BUY costs
    142.789, within 0.005 of 142.79. *)
Theorem calculate_schedule (price : Q) (quantity : Z) (side asset_type : string) :
  let c := IndianTaxModel.calculate IndianTaxModel.init price quantity
                                    side asset_type in
  let b := breakdown c in
  let turnover := price * inject_Z quantity in
  let regulatory_fee := turnover * 0.000001 in
  Turnover b == turnover
  /\ Brokerage b == Qmin (turnover * 0.0003) 20
  /\ (asset_type = "EQUITY"%string -> STT b == turnover * 0.001)
  /\ (asset_type = "INTRADAY"%string -> side = "SELL"%string ->
      STT b == turnover * 0.00025)
  /\ (asset_type = "INTRADAY"%string -> side <> "SELL"%string -> STT b == 0)
  /\ Exchange_Charges b == turnover * 0.0000345
  /\ (side = "BUY"%string -> Stamp_Duty b == turnover * 0.00015)
  /\ (side <> "BUY"%string -> Stamp_Duty b == 0)
  /\ GST b == 0.18 * (Brokerage b + Exchange_Charges b + regulatory_fee)
  /\ total_cost c == Brokerage b + STT b + Exchange_Charges b
                     + regulatory_fee + Stamp_Duty b + GST b
  /\ Total_Charges b == total_cost c
  /\ (turnover == 100000 -> side = "BUY"%string ->
      asset_type = "EQUITY"%string ->
      total_cost c == 142.789
      /\ 142.79 - 0.005 <= total_cost c <= 142.79 + 0.005).
Proof.
  cbn zeta.
  assert (Hex : side = "BUY"%string -> asset_type = "EQUITY"%string ->
                price * inject_Z quantity == 100000 ->
                total_cost (IndianTaxModel.calculate IndianTaxModel.init
                              price quantity side asset_type) == 142.789).
  { intros -> -> Ht. unfold IndianTaxModel.calculate. cbn.
    unfold py_min.
    destruct (Qltb 20 (price * inject_Z quantity * 0.0003)) eqn:E.
    - lra.
    - apply Qltb_ge in E. lra. }
  unfold IndianTaxModel.calculate; cbn [breakdown total_cost Turnover
    Brokerage STT Exchange_Charges Stamp_Duty GST Total_Charges
    IndianTaxModel.brokerage IndianTaxModel.init].
  repeat apply conj; try reflexivity.
  - apply py_min_Qmin.
  - intros ->. reflexivity.
  - intros -> ->. reflexivity.
  - intros -> Hs. cbn. apply String.eqb_neq in Hs. rewrite Hs. reflexivity.
  - intros ->. reflexivity.
  - intros Hs. apply String.eqb_neq in Hs. rewrite Hs. reflexivity.
  - ring.
  - intros Ht Hs Ha. pose proof (Hex Hs Ha Ht) as Htot. cbn in Htot.
    split; [exact Htot | split; rewrite Htot; lra].
Qed.

Lemma calculate_schedule_witness :
  let c := IndianTaxModel.calculate IndianTaxModel.init 1000 100
                                    "BUY" "EQUITY" in
  STT (breakdown c) == 100
  /\ Stamp_Duty (breakdown c) == 15
  /\ total_cost c == 142.789.
Proof.
  pose proof (calculate_schedule 1000 100 "BUY" "EQUITY") as H.
  cbn zeta in H.
  destruct H as (_ & _ & Hstt & _ & _ & _ & Hsd & _ & _ & _ & _ & Hex).
  split; [|split].
  - rewrite (Hstt eq_refl). reflexivity.
  - rewrite (Hsd eq_refl). reflexivity.
  - apply Hex; reflexivity.
Defined.
End CostModel.

(** ** The slippage model *)

Section Slippage.
Local Open Scope Q_scope.

Lemma base_slippage_nonneg (base_bps : Q) :
  0 <= base_bps ->
  0 <= SlippageModel.base_slippage (SlippageModel.init base_bps).
Proof.
  intros H. cbn. apply Qle_shift_div_l; lra.
Qed.

Lemma impact_moves_against (self : SlippageModel.t) (p : Q)
      (volatility : option Q) :
  0 <= p -> 0 <= SlippageModel.base_slippage self ->
  p <= SlippageModel.calculate_fill_price self p "BUY" volatility
  /\ SlippageModel.calculate_fill_price self p "SELL" volatility <= p.
Proof.
  intros Hp Hb. unfold SlippageModel.calculate_fill_price. cbn.
  set (i := SlippageModel.base_slippage self) in *.
  destruct (SlippageModel.volatility_penalty volatility); split; nra.
Qed.

(** C7. For a positive target price and a non-negative number of
    basis points, a BUY fills at or above the target and a SELL at or
    below it, whatever the volatility argument. *)
Theorem slippage_never_improves (base_bps p : Q) (volatility : option Q) :
  0 < p -> 0 <= base_bps ->
  p <= SlippageModel.calculate_fill_price (SlippageModel.init base_bps)
         p "BUY" volatility
  /\ SlippageModel.calculate_fill_price (SlippageModel.init base_bps)
       p "SELL" volatility <= p.
Proof.
  intros Hp Hb. apply impact_moves_against.
  - lra.
  - apply base_slippage_nonneg, Hb.
Qed.

Lemma slippage_never_improves_witness :
  100 <= SlippageModel.calculate_fill_price (SlippageModel.init 5)
           100 "BUY" (Some 0.02)
  /\ SlippageModel.calculate_fill_price (SlippageModel.init 5)
       100 "SELL" (Some 0.02) <= 100.
Proof.
  apply (slippage_never_improves 5 100 (Some 0.02)); vm_compute; congruence.
Defined.

(** Scenario 1 of the specification: a market BUY at close 100 with
    five basis points fills at 100.05. *)
Example market_buy_fill_price :
  SlippageModel.calculate_fill_price (SlippageModel.init 5) 100 "BUY" None
  == 100.05.
Proof. reflexivity. Qed.
End Slippage.

(** ** The position sizer *)

Section Sizing.
Local Open Scope Q_scope.

(** The constant is the square root of 252 to thirteen decimals. *)
Lemma np_sqrt_252_square :
  252 - (1 # 10000000000000) < np_sqrt_252 * np_sqrt_252
  /\ np_sqrt_252 * np_sqrt_252 < 252 + (1 # 10000000000000).
Proof. split; vm_compute; reflexivity. Qed.

Lemma Qfloor_between (x : Q) (n : Z) :
  inject_Z n <= x -> x < inject_Z (n + 1) -> Qfloor x = n.
Proof.
  intros Hlo Hhi.
  assert (H1 : (n <= Qfloor x)%Z).
  { rewrite <- (Qfloor_Z n). apply Qfloor_resp_le, Hlo. }
  assert (H2 : (Qfloor x < n + 1)%Z).
  { rewrite Zlt_Qlt. eapply Qle_lt_trans; [apply Qfloor_le | exact Hhi]. }
  lia.
Qed.

(** The sizing example does not hinge on how the square root is
    rounded: with any positive rational whose square is within 0.01 of
    252 in the place of [np_sqrt_252], the formula gives 251. *)
Lemma sizing_example_any_root (s : Q) :
  0 < s -> 251.99 < s * s -> s * s < 252.01 ->
  Qfloor (1000000 * Qmin (0.20 / s / 0.02) 1 / 2500) = 251%Z.
Proof.
  intros Hs Hlo Hhi.
  assert (Hs1 : 15.874 < s) by nra.
  assert (Hs2 : s < 15.88) by nra.
  assert (Hne : ~ s == 0) by lra.
  assert (Hq : 0.20 / s / 0.02 == 10 / s) by (field; exact Hne).
  assert (Hlt : 10 / s < 1) by (apply Qlt_shift_div_r; lra).
  assert (Hmin : Qmin (0.20 / s / 0.02) 1 == 10 / s).
  { rewrite Hq. apply Q.min_l. lra. }
  assert (Hx : 1000000 * Qmin (0.20 / s / 0.02) 1 / 2500 == 4000 / s)
    by (rewrite Hmin; field; exact Hne).
  apply Qfloor_between; rewrite Hx.
  - change (inject_Z 251) with 251.
    apply Qle_shift_div_l; [exact Hs|]. lra.
  - change (inject_Z (251 + 1)) with 252.
    apply Qlt_shift_div_r; [exact Hs|]. lra.
Qed.

Lemma vol_scalar_of_le_1 (self : PositionSizer.t) (v : Q) :
  PositionSizer.vol_scalar_of self v <= 1.
Proof. apply py_min_le_r. Qed.

Lemma calculate_quantity_positive (self : PositionSizer.t)
      (capital price v : Q) :
  0 < price -> 0 < v ->
  PositionSizer.calculate_quantity self capital price v
  = Ok (Qfloor (capital * PositionSizer.vol_scalar_of self v / price)).
Proof.
  intros Hp Hv. unfold PositionSizer.calculate_quantity, py_floordiv.
  assert (E1 : Qleb v 0 = false) by (apply Qleb_gt, Hv).
  assert (E2 : Qeq_bool price 0 = false) by (apply Qeq_bool_false; lra).
  rewrite E1, E2. reflexivity.
Qed.

(** The sizing example of the specification evaluates to 251 shares:
    the scalar is 0.62994..., not 0.63. *)
Lemma calculate_quantity_example_not_252 :
  PositionSizer.calculate_quantity (PositionSizer.init 0.20)
    1000000 2500 0.02 <> Ok 252%Z.
Proof. vm_compute. congruence. Qed.

(** C6, amended.  For a positive price and a positive daily
    volatility the quantity is the floor of capital times
    min(target / sqrt 252 / volatility, 1) over the price; the scalar
    never exceeds 1; for capital 1000000, price 2500, volatility 0.02
    and target 0.20 the quantity is 251. *)
Theorem calculate_quantity_formula (target capital price v : Q) :
  0 < price -> 0 < v ->
  PositionSizer.calculate_quantity (PositionSizer.init target)
    capital price v
  = Ok (Qfloor (capital * Qmin (target / np_sqrt_252 / v) 1 / price))
  /\ PositionSizer.vol_scalar_of (PositionSizer.init target) v <= 1
  /\ PositionSizer.calculate_quantity (PositionSizer.init 0.20)
       1000000 2500 0.02 = Ok 251%Z.
Proof.
  intros Hp Hv. split; [|split].
  - rewrite calculate_quantity_positive by assumption.
    f_equal. apply Qfloor_comp.
    unfold PositionSizer.vol_scalar_of. cbn.
    rewrite py_min_Qmin. reflexivity.
  - apply vol_scalar_of_le_1.
  - vm_compute. reflexivity.
Qed.

Lemma calculate_quantity_formula_witness :
  PositionSizer.calculate_quantity (PositionSizer.init 0.20)
    1000000 2500 0.02
  = Ok (Qfloor (1000000 * Qmin (0.20 / np_sqrt_252 / 0.02) 1 / 2500))
  /\ PositionSizer.vol_scalar_of (PositionSizer.init 0.20) 0.02 <= 1
  /\ PositionSizer.calculate_quantity (PositionSizer.init 0.20)
       1000000 2500 0.02 = Ok 251%Z.
Proof.
  apply (calculate_quantity_formula 0.20 1000000 2500 0.02);
    vm_compute; reflexivity.
Defined.
End Sizing.

(** ** The trade ledger *)

Section Ledger.
Local Open Scope Q_scope.

(** [log_trade] raises only on a positive entry price with a zero
    quantity. *)
Lemma log_trade_raises (self : TradeLedger.t) (ticker : string)
      (entry_date exit_date : option datetime) (entry_price exit_price : Q)
      (quantity : Z) (side : string) (fees : Q) (e : exn) :
  TradeLedger.log_trade self ticker entry_date exit_date entry_price
    exit_price quantity side fees = Raise e ->
  e = ZeroDivisionError /\ 0 < entry_price /\ quantity = 0%Z.
Proof.
  unfold TradeLedger.log_trade.
  destruct (Qltb 0 entry_price) eqn:E; cbn; [|discriminate].
  unfold py_div.
  destruct (Qeq_bool (entry_price * inject_Z quantity) 0) eqn:E0;
    cbn; [|discriminate].
  intros [= <-]. apply Qltb_lt in E. apply Qeq_bool_iff in E0.
  split; [reflexivity|]. split; [exact E|].
  destruct (Z.eq_dec quantity 0%Z) as [->|Hq]; [reflexivity|].
  exfalso. apply Qmult_integral in E0. destruct E0 as [E0|E0].
  - lra.
  - apply Hq. unfold Qeq in E0. cbn in E0. lia.
Qed.

(** C9. A trade logged with entry price 0 is recorded, with return
    percentage 0; no exception is raised. *)
Theorem log_trade_zero_entry_price (self : TradeLedger.t) (ticker : string)
        (entry_date exit_date : option datetime)
        (entry_price exit_price : Q) (quantity : Z) (side : string)
        (fees : Q) :
  entry_price == 0 ->
  exists r,
    TradeLedger.log_trade self ticker entry_date exit_date entry_price
      exit_price quantity side fees
    = Ok (TradeLedger.mk (TradeLedger.trades self ++ [r]))
    /\ TradeRecord.return_pct r = 0
    /\ TradeRecord.entry_price r = entry_price
    /\ TradeRecord.quantity r = quantity.
Proof.
  intros H0. unfold TradeLedger.log_trade.
  assert (E : Qltb 0 entry_price = false) by (apply Qltb_ge; lra).
  rewrite E. cbn. eexists. split; [reflexivity|]. cbn. auto.
Qed.

Lemma log_trade_zero_entry_price_witness :
  exists r,
    TradeLedger.log_trade TradeLedger.init "RELIANCE.NS" (Some 1%Z)
      (Some 2%Z) 0 110 10 "LONG" 3
    = Ok (TradeLedger.mk (TradeLedger.trades TradeLedger.init ++ [r]))
    /\ TradeRecord.return_pct r = 0
    /\ TradeRecord.entry_price r = 0
    /\ TradeRecord.quantity r = 10%Z.
Proof.
  apply (log_trade_zero_entry_price TradeLedger.init "RELIANCE.NS"
           (Some 1%Z) (Some 2%Z) 0 110 10 "LONG" 3).
  reflexivity.
Defined.
End Ledger.

(** ** The compliance gate *)

Section Compliance.
Local Open Scope Q_scope.
Import RiskCompliance.

Variable self : RiskCompliance.t.
Variable current_portfolio : portfolio_t.
Variable proposed_trade : trade_t.

Let active_positions : Z :=
  Z.of_nat (size (default (∅ : gmap string Z) (positions current_portfolio))).
Let current_dd : Q := default 0 (current_drawdown current_portfolio).

Lemma entry_at_limit_true :
  (max_pos self <= active_positions)%Z ->
  side proposed_trade = Some "ENTRY"%string ->
  entry_at_limit self active_positions proposed_trade = Ok true.
Proof.
  intros Hn Hs. unfold entry_at_limit.
  apply Z.leb_le in Hn. rewrite Hn, Hs. reflexivity.
Qed.

Lemma entry_at_limit_false :
  below_limit_or_not_entry self current_portfolio proposed_trade ->
  entry_at_limit self active_positions proposed_trade = Ok false.
Proof.
  intros [Hn | (s & Hs & Hne)]; unfold entry_at_limit.
  - fold active_positions in Hn. apply Z.leb_gt in Hn. rewrite Hn.
    reflexivity.
  - rewrite Hs. apply String.eqb_neq in Hne. rewrite Hne.
    destruct (max_pos self <=? active_positions)%Z; reflexivity.
Qed.

(** C5. The checks run in the order position limit, drawdown, sector
    exposure, and the first one that fails decides: an ENTRY at or
    above the position limit is rejected with the message that names
    the limit, whatever the drawdown and the sector; past the first
    check a drawdown above the limit is rejected whatever the sector;
    past both, the sector exposure decides. *)
Theorem checks_in_order :
  ((max_pos self <= active_positions)%Z ->
   side proposed_trade = Some "ENTRY"%string ->
   check_trade_permission self current_portfolio proposed_trade
   = Ok (mkVerdict false
           [Lit "REJECTED: Max positions reached (";
            FmtInt active_positions; Lit "/"; FmtInt (max_pos self);
            Lit ")"]))
  /\ (below_limit_or_not_entry self current_portfolio proposed_trade ->
      max_dd self < current_dd ->
      check_trade_permission self current_portfolio proposed_trade
      = Ok (mkVerdict false (drawdown_msg current_dd (max_dd self))))
  /\ (below_limit_or_not_entry self current_portfolio proposed_trade ->
      current_dd <= max_dd self ->
      forall target_sector total_capital,
        sector proposed_trade = Some target_sector ->
        target_sector <> ""%string ->
        default 1 (total_equity current_portfolio) = total_capital ->
        ~ total_capital == 0 ->
        let new_exposure :=
          default 0
            (default (∅ : gmap string Q)
               (sector_allocation current_portfolio) !! target_sector)
          + default 0 (capital_impact proposed_trade) / total_capital in
        check_trade_permission self current_portfolio proposed_trade
        = Ok (if Qltb (max_sector self) new_exposure
              then mkVerdict false
                     (sector_msg target_sector new_exposure (max_sector self))
              else mkVerdict true passed_msg)).
Proof.
  split; [|split].
  - intros Hn Hs. unfold check_trade_permission.
    fold active_positions. rewrite (entry_at_limit_true Hn Hs). reflexivity.
  - intros H1 Hdd. unfold check_trade_permission.
    fold active_positions. rewrite (entry_at_limit_false H1). cbn.
    fold current_dd. apply Qltb_lt in Hdd. rewrite Hdd. reflexivity.
  - intros H1 Hdd target_sector total_capital Hs Hne Htot Hnz new_exposure.
    unfold check_trade_permission.
    fold active_positions. rewrite (entry_at_limit_false H1). cbn.
    fold current_dd. apply Qltb_ge in Hdd. rewrite Hdd.
    rewrite Hs. cbn. apply String.eqb_neq in Hne. rewrite Hne.
    rewrite Htot. unfold py_div.
    apply Qeq_bool_false in Hnz. rewrite Hnz. cbn.
    fold new_exposure. destruct (Qltb (max_sector self) new_exposure);
      reflexivity.
Qed.

(** C10. A trade without a sector, or with the empty string as
    sector, that passes the position and drawdown checks is allowed;
    neither its capital impact nor the sector allocations are read. *)
Theorem no_sector_skips_exposure_check :
  sector proposed_trade = None \/ sector proposed_trade = Some ""%string ->
  below_limit_or_not_entry self current_portfolio proposed_trade ->
  current_dd <= max_dd self ->
  check_trade_permission self current_portfolio proposed_trade
  = Ok (mkVerdict true [Lit "Compliance Checks Passed"]).
Proof.
  intros Hs H1 Hdd. unfold check_trade_permission.
  fold active_positions. rewrite (entry_at_limit_false H1). cbn.
  fold current_dd. apply Qltb_ge in Hdd. rewrite Hdd.
  destruct Hs as [-> | ->]; reflexivity.
Qed.
End Compliance.

Section ComplianceWitnesses.
Local Open Scope Q_scope.
Import RiskCompliance.

Lemma checks_in_order_witness :
  check_trade_permission
    (init (mkConfig (Some 0.15) (Some 0.30) (Some 10%Z)))
    (mkPortfolio (Some ten_positions) (Some 0.5) None (Some 0))
    (mkTrade (Some "ENTRY"%string) (Some "Tech"%string) (Some 1000))
  = Ok (mkVerdict false
          [Lit "REJECTED: Max positions reached ("; FmtInt 10; Lit "/";
           FmtInt 10; Lit ")"]).
Proof.
  apply (proj1 (checks_in_order
           (init (mkConfig (Some 0.15) (Some 0.30) (Some 10%Z)))
           (mkPortfolio (Some ten_positions) (Some 0.5) None (Some 0))
           (mkTrade (Some "ENTRY"%string) (Some "Tech"%string) (Some 1000)))).
  - vm_compute. congruence.
  - reflexivity.
Defined.

Lemma no_sector_skips_exposure_check_witness :
  check_trade_permission
    (init (mkConfig None None None))
    (mkPortfolio (Some ∅) (Some 0.1) (Some {[ "Tech"%string := 0.9 ]})
                 (Some 0))
    (mkTrade (Some "ENTRY"%string) None (Some 1000000))
  = Ok (mkVerdict true [Lit "Compliance Checks Passed"]).
Proof.
  apply (no_sector_skips_exposure_check
           (init (mkConfig None None None))
           (mkPortfolio (Some ∅) (Some 0.1)
                        (Some {[ "Tech"%string := 0.9 ]}) (Some 0))
           (mkTrade (Some "ENTRY"%string) None (Some 1000000))).
  - left. reflexivity.
  - left. vm_compute. reflexivity.
  - vm_compute. congruence.
Defined.
End ComplianceWitnesses.

(** ** The order manager *)

Section Matching.
Local Open Scope Q_scope.

Lemma option_Q_eqb_refl (a : option Q) : Order.option_Q_eqb a a = true.
Proof. destruct a; cbn; [apply Qeq_bool_refl | reflexivity]. Qed.

Lemma Order_eqb_refl (o : Order.t) : Order.eqb o o = true.
Proof.
  unfold Order.eqb.
  rewrite !String.eqb_refl, Z.eqb_refl, option_Q_eqb_refl, !Qeq_bool_refl.
  destruct (Order.fill_time o); cbn; rewrite ?Z.eqb_refl; reflexivity.
Qed.

(** Equal orders agree on what the fill test reads. *)
Lemma Order_eqb_matching_fields (a b : Order.t) :
  Order.eqb a b = true ->
  Order.symbol a = Order.symbol b
  /\ Order.side a = Order.side b
  /\ Order.order_type a = Order.order_type b
  /\ Order.option_Q_eqb (Order.price a) (Order.price b) = true.
Proof.
  unfold Order.eqb. rewrite !andb_true_iff.
  intros (((((((((Hs & _) & Hsd) & Ht) & Hp) & _) & _) & _) & _) & _).
  apply String.eqb_eq in Hs, Hsd, Ht. auto.
Qed.

Lemma fill_decision_eqb (eng : SlippageModel.t) (a b : Order.t)
      (bar : Candle.t) :
  Order.eqb a b = true ->
  match OrderManager.fill_decision eng a bar,
        OrderManager.fill_decision eng b bar with
  | Ok (fa, _), Ok (fb, _) => fa = fb
  | Raise _, Raise _ => True
  | _, _ => False
  end.
Proof.
  intros H. apply Order_eqb_matching_fields in H.
  destruct H as (_ & Hsd & Ht & Hp).
  unfold OrderManager.fill_decision. rewrite Hsd, Ht.
  destruct (Order.price a) as [pa|], (Order.price b) as [pb|];
    cbn in Hp; try discriminate.
  - apply Qeq_bool_iff in Hp.
    assert (E1 : Qleb (Candle.low bar) pa = Qleb (Candle.low bar) pb)
      by (unfold Qleb; rewrite Hp; reflexivity).
    assert (E2 : Qleb pa (Candle.high bar) = Qleb pb (Candle.high bar))
      by (unfold Qleb; rewrite Hp; reflexivity).
    cbn. rewrite E1, E2.
    repeat match goal with
           | |- context [if ?c then _ else _] => destruct c; cbn
           end; auto.
  - cbn.
    repeat match goal with
           | |- context [if ?c then _ else _] => destruct c; cbn
           end; auto.
Qed.

Lemma fills_on_eqb (eng : SlippageModel.t) (md : gmap string Candle.t)
      (a b : Order.t) :
  Order.eqb a b = true -> fills_on eng md a = fills_on eng md b.
Proof.
  intros H. unfold fills_on.
  destruct (Order_eqb_matching_fields a b H) as (Hs & _). rewrite Hs.
  destruct (md !! Order.symbol b) as [bar|]; [|reflexivity].
  pose proof (fill_decision_eqb eng a b bar H) as Hd.
  destruct (OrderManager.fill_decision eng a bar) as [[fa ?]|],
           (OrderManager.fill_decision eng b bar) as [[fb ?]|];
    try contradiction; [subst fb|]; reflexivity.
Qed.

(** The fill test raises only when it compares a bar with a missing
    price. *)
Lemma fill_decision_raises (eng : SlippageModel.t) (o : Order.t)
      (bar : Candle.t) (e : exn) :
  OrderManager.fill_decision eng o bar = Raise e ->
  e = TypeError /\ Order.price o = None
  /\ Order.order_type o <> "MARKET"%string.
Proof.
  unfold OrderManager.fill_decision.
  destruct (String.eqb (Order.order_type o) "MARKET") eqn:Em;
    [discriminate|].
  apply String.eqb_neq in Em.
  destruct (Order.price o) as [p|]; cbn.
  - repeat match goal with
           | |- context [if ?c then _ else _] => destruct c; cbn
           end; discriminate.
  - repeat match goal with
           | |- context [if ?c then _ else _] => destruct c; cbn
           end; intros [= <-] || discriminate; auto.
Qed.

Lemma well_formed_no_raise (eng : SlippageModel.t)
      (md : gmap string Candle.t) (o : Order.t) :
  well_formed o -> raises_on eng md o = false.
Proof.
  intros Hwf. unfold raises_on.
  destruct (md !! Order.symbol o) as [bar|]; [|reflexivity].
  destruct (OrderManager.fill_decision eng o bar) as [d|e] eqn:E;
    [reflexivity|].
  apply fill_decision_raises in E. destruct E as (_ & Hp & Hm).
  destruct Hwf as [Hw | [p Hw]]; congruence.
Qed.

(** [remove] finds the order at the position the loop took it from
    when no earlier open order equals it. *)
Lemma list_remove_middle (o : Order.t) (pre rest : list Order.t) :
  Forall (fun y => Order.eqb y o = false) pre ->
  list_remove o (pre ++ o :: rest) = Ok (pre ++ rest).
Proof.
  induction 1 as [|y pre Hy _ IH]; cbn.
  - rewrite Order_eqb_refl. reflexivity.
  - rewrite Hy, IH. reflexivity.
Qed.

Lemma kept_not_equal_to_filled (eng : SlippageModel.t)
      (md : gmap string Candle.t) (o : Order.t) (pre : list Order.t) :
  fills_on eng md o = true ->
  Forall (fun y => fills_on eng md y = false) pre ->
  Forall (fun y => Order.eqb y o = false) pre.
Proof.
  intros Ho Hpre. eapply Forall_impl; [exact Hpre|]. intros y Hy. cbn in Hy.
  destruct (Order.eqb y o) eqn:E; [|reflexivity].
  apply (fills_on_eqb eng md) in E. congruence.
Qed.
End Matching.

Section ProcessOrders.
Local Open Scope Q_scope.

Variable md : gmap string Candle.t.

(** The four ways through one turn of the loop. *)
Lemma process_loop_no_bar (o : Order.t) (rest : list Order.t)
      (self : OrderManager.t) (w : World) :
  md !! Order.symbol o = None ->
  OrderManager.process_loop md (o :: rest) self w
  = OrderManager.process_loop md rest self w.
Proof. intros H. cbn. rewrite H. reflexivity. Qed.

Lemma process_loop_no_fill (o : Order.t) (rest : list Order.t)
      (self : OrderManager.t) (w : World) (bar : Candle.t) (p : Q) :
  md !! Order.symbol o = Some bar ->
  OrderManager.fill_decision (OrderManager.slippage_engine self) o bar
  = Ok (false, p) ->
  OrderManager.process_loop md (o :: rest) self w
  = OrderManager.process_loop md rest self w.
Proof.
  intros H Hd. cbn. rewrite H. unfold bind, lift. rewrite Hd. reflexivity.
Qed.

Lemma process_loop_raise (o : Order.t) (rest : list Order.t)
      (self : OrderManager.t) (w : World) (bar : Candle.t) (e : exn) :
  md !! Order.symbol o = Some bar ->
  OrderManager.fill_decision (OrderManager.slippage_engine self) o bar
  = Raise e ->
  OrderManager.process_loop md (o :: rest) self w = Raise e.
Proof.
  intros H Hd. cbn. rewrite H. unfold bind, lift. rewrite Hd. reflexivity.
Qed.

Lemma process_loop_fill (o : Order.t) (rest remaining : list Order.t)
      (self : OrderManager.t) (w : World) (bar : Candle.t) (p : Q) :
  md !! Order.symbol o = Some bar ->
  OrderManager.fill_decision (OrderManager.slippage_engine self) o bar
  = Ok (true, p) ->
  list_remove o (OrderManager.open_orders self) = Ok remaining ->
  OrderManager.process_loop md (o :: rest) self w
  = OrderManager.process_loop md rest
      (OrderManager.mk remaining
         (OrderManager.filled_orders self
          ++ [Order.set_filled o p
                (TradeCost.total_cost
                   (IndianTaxModel.calculate_default
                      (OrderManager.cost_engine self) p
                      (Order.quantity o) (Order.side o)))
                (clock w 0%nat)])
         (OrderManager.slippage_engine self)
         (OrderManager.cost_engine self))
      (tick w).
Proof.
  intros H Hd Hr. cbn. rewrite H. unfold bind, lift. rewrite Hd. cbn.
  unfold OrderManager._execute_fill, bind, lift, datetime_now, ret.
  rewrite Hr. reflexivity.
Qed.

Variable eng : SlippageModel.t.
Variable cost : IndianTaxModel.t.

(** What a pass over the copy of the open orders does: it raises when
    an order lacks the price it is compared with; otherwise the
    orders the bar does not fill stay open, in their order, and the
    filled ones are queued behind the earlier fills, in their order. *)
Lemma process_loop_run (snapshot : list Order.t) :
  forall (pre filled : list Order.t) (w : World),
    Forall (fun y => fills_on eng md y = false) pre ->
    (Exists (fun o => raises_on eng md o = true) snapshot
     /\ OrderManager.process_loop md snapshot
          (OrderManager.mk (pre ++ snapshot) filled eng cost) w
        = Raise TypeError)
    \/ (exists fills w',
           OrderManager.process_loop md snapshot
             (OrderManager.mk (pre ++ snapshot) filled eng cost) w
           = Ok (OrderManager.mk
                   (pre ++ List.filter
                             (fun o => negb (fills_on eng md o)) snapshot)
                   (filled ++ fills) eng cost, w')
           /\ Forall2 (fill_of eng cost md)
                (List.filter (fills_on eng md) snapshot) fills
           /\ uuids w' = uuids w).
Proof.
  induction snapshot as [|o rest IH]; intros pre filled w Hpre.
  - right. exists [], w. cbn. rewrite !app_nil_r.
    split; [reflexivity | split; [constructor | reflexivity]].
  - assert (Hassoc : pre ++ o :: rest = (pre ++ [o]) ++ rest)
      by (rewrite <- app_assoc; reflexivity).
    destruct (md !! Order.symbol o) as [bar|] eqn:Hmd.
    + destruct (OrderManager.fill_decision eng o bar) as [[[|] p]|e] eqn:Hd.
      * (* the bar fills the order *)
        assert (Hf : fills_on eng md o = true)
          by (unfold fills_on; rewrite Hmd, Hd; reflexivity).
        rewrite (process_loop_fill o rest (pre ++ rest)
                   (OrderManager.mk (pre ++ o :: rest) filled eng cost)
                   w bar p Hmd Hd)
          by (apply list_remove_middle;
              apply (kept_not_equal_to_filled eng md); assumption).
        cbn [OrderManager.filled_orders OrderManager.slippage_engine
             OrderManager.cost_engine].
        destruct (IH pre
                    (filled ++ [Order.set_filled o p
                       (TradeCost.total_cost
                          (IndianTaxModel.calculate_default cost p
                             (Order.quantity o) (Order.side o)))
                       (clock w 0%nat)])
                    (tick w) Hpre)
          as [[Hex Hr] | (fills & w' & Hr & Hfills & Hw)].
        -- left. split; [apply Exists_cons_tl, Hex | exact Hr].
        -- right. eexists (_ :: fills), w'. cbn [List.filter].
           rewrite Hf. cbn [negb]. split; [|split].
           ++ rewrite Hr, <- app_assoc. reflexivity.
           ++ constructor; [|exact Hfills].
              exists bar, p, (clock w 0%nat). auto.
           ++ exact Hw.
      * (* the bar leaves the order open *)
        assert (Hf : fills_on eng md o = false)
          by (unfold fills_on; rewrite Hmd, Hd; reflexivity).
        rewrite (process_loop_no_fill o rest
                   (OrderManager.mk (pre ++ o :: rest) filled eng cost)
                   w bar p Hmd Hd), Hassoc.
        destruct (IH (pre ++ [o]) filled w)
          as [[Hex Hr] | (fills & w' & Hr & Hfills & Hw)].
        { apply Forall_app. split; [exact Hpre | repeat constructor; exact Hf]. }
        -- left. split; [apply Exists_cons_tl, Hex | exact Hr].
        -- right. exists fills, w'. cbn [List.filter].
           rewrite Hf. cbn [negb]. split; [|split].
           ++ rewrite Hr, <- app_assoc. reflexivity.
           ++ exact Hfills.
           ++ exact Hw.
      * (* the comparison raises *)
        left. split.
        -- apply Exists_cons_hd. unfold raises_on. rewrite Hmd, Hd.
           reflexivity.
        -- rewrite (process_loop_raise o rest
                      (OrderManager.mk (pre ++ o :: rest) filled eng cost)
                      w bar e Hmd Hd).
           apply fill_decision_raises in Hd. destruct Hd as [-> _].
           reflexivity.
    + (* no bar for the symbol *)
      assert (Hf : fills_on eng md o = false)
        by (unfold fills_on; rewrite Hmd; reflexivity).
      rewrite (process_loop_no_bar o rest _ w Hmd), Hassoc.
      destruct (IH (pre ++ [o]) filled w)
        as [[Hex Hr] | (fills & w' & Hr & Hfills & Hw)].
      { apply Forall_app. split; [exact Hpre | repeat constructor; exact Hf]. }
      * left. split; [apply Exists_cons_tl, Hex | exact Hr].
      * right. exists fills, w'. cbn [List.filter].
        rewrite Hf. cbn [negb]. split; [|split].
        -- rewrite Hr, <- app_assoc. reflexivity.
        -- exact Hfills.
        -- exact Hw.
Qed.
End ProcessOrders.

Section OrderBook.
Local Open Scope Q_scope.

Lemma process_orders_run (self : OrderManager.t)
      (md : gmap string Candle.t) (w : World) :
  let eng := OrderManager.slippage_engine self in
  let cost := OrderManager.cost_engine self in
  (Exists (fun o => raises_on eng md o = true) (OrderManager.open_orders self)
   /\ OrderManager.process_orders self md w = Raise TypeError)
  \/ (exists fills w',
         OrderManager.process_orders self md w
         = Ok (OrderManager.mk
                 (List.filter (fun o => negb (fills_on eng md o))
                    (OrderManager.open_orders self))
                 (OrderManager.filled_orders self ++ fills) eng cost, w')
         /\ Forall2 (fill_of eng cost md)
              (List.filter (fills_on eng md) (OrderManager.open_orders self))
              fills
         /\ uuids w' = uuids w).
Proof.
  destruct self as [book filled eng cost]. cbn.
  unfold OrderManager.process_orders. cbn.
  apply (process_loop_run md eng cost book [] filled w). constructor.
Qed.

(** A book whose orders carry the prices they need is processed
    without an exception. *)
Lemma process_orders_total (self : OrderManager.t)
      (md : gmap string Candle.t) (w : World) :
  Forall well_formed (OrderManager.open_orders self) ->
  let eng := OrderManager.slippage_engine self in
  let cost := OrderManager.cost_engine self in
  exists fills w',
    OrderManager.process_orders self md w
    = Ok (OrderManager.mk
            (List.filter (fun o => negb (fills_on eng md o))
               (OrderManager.open_orders self))
            (OrderManager.filled_orders self ++ fills) eng cost, w')
    /\ Forall2 (fill_of eng cost md)
         (List.filter (fills_on eng md) (OrderManager.open_orders self))
         fills
    /\ uuids w' = uuids w.
Proof.
  intros Hwf eng cost.
  destruct (process_orders_run self md w) as [[Hex _] | H]; [|exact H].
  exfalso. apply Exists_exists in Hex. destruct Hex as (o & Ho & Hr).
  rewrite Forall_forall in Hwf.
  rewrite (well_formed_no_raise _ md o (Hwf o Ho)) in Hr. discriminate.
Qed.

(** A pass that returns has this result. *)
Lemma process_orders_returns (self self' : OrderManager.t)
      (md : gmap string Candle.t) (w w' : World) :
  OrderManager.process_orders self md w = Ok (self', w') ->
  let eng := OrderManager.slippage_engine self in
  let cost := OrderManager.cost_engine self in
  exists fills,
    self' = OrderManager.mk
              (List.filter (fun o => negb (fills_on eng md o))
                 (OrderManager.open_orders self))
              (OrderManager.filled_orders self ++ fills) eng cost
    /\ Forall2 (fill_of eng cost md)
         (List.filter (fills_on eng md) (OrderManager.open_orders self))
         fills
    /\ uuids w' = uuids w.
Proof.
  intros Hrun eng cost.
  destruct (process_orders_run self md w)
    as [[_ Hr] | (fills & w1 & Hr & Hf & Hw)]; [congruence|].
  rewrite Hrun in Hr. injection Hr as -> ->. exists fills. auto.
Qed.

Lemma Forall2_In_l {A B : Type} (R : A -> B -> Prop) (l : list A)
      (k : list B) (x : A) :
  Forall2 R l k -> In x l -> exists y, In y k /\ R x y.
Proof.
  induction 1 as [|a b l k Hab _ IH]; cbn; [tauto|].
  intros [-> | Hx].
  - exists b. auto.
  - destruct (IH Hx) as (y & Hy & Hxy). exists y. auto.
Qed.

Lemma Forall2_In_r {A B : Type} (R : A -> B -> Prop) (l : list A)
      (k : list B) (y : B) :
  Forall2 R l k -> In y k -> exists x, In x l /\ R x y.
Proof.
  induction 1 as [|a b l k Hab _ IH]; cbn; [tauto|].
  intros [-> | Hy].
  - exists a. auto.
  - destruct (IH Hy) as (x & Hx & Hxy). exists x. auto.
Qed.

(** The fill test on a LIMIT BUY order. *)
Lemma limit_buy_decision (eng : SlippageModel.t) (o : Order.t) (L : Q)
      (bar : Candle.t) :
  Order.order_type o = "LIMIT"%string ->
  Order.side o = "BUY"%string ->
  Order.price o = Some L ->
  OrderManager.fill_decision eng o bar
  = if Qleb (Candle.low bar) L
    then Ok (true, py_min L (Candle.open bar))
    else Ok (false, 0).
Proof.
  intros Ht Hs Hp. unfold OrderManager.fill_decision.
  rewrite Ht, Hs, Hp. cbn.
  destruct (Qleb (Candle.low bar) L); reflexivity.
Qed.

(** C3. An open LIMIT BUY order with limit [L] leaves the open orders
    on a bar of its symbol if and only if the low of the bar is at
    most [L]; it is then queued as filled, and only then; its fill
    price is the smaller of [L] and the open of the bar. *)
Theorem limit_buy_fills_iff (self : OrderManager.t)
        (md : gmap string Candle.t) (w : World) (o : Order.t) (L : Q)
        (bar : Candle.t) :
  Forall well_formed (OrderManager.open_orders self) ->
  In o (OrderManager.open_orders self) ->
  Order.order_type o = "LIMIT"%string ->
  Order.side o = "BUY"%string ->
  Order.price o = Some L ->
  md !! Order.symbol o = Some bar ->
  let eng := OrderManager.slippage_engine self in
  let cost := OrderManager.cost_engine self in
  exists self' w',
    OrderManager.process_orders self md w = Ok (self', w')
    /\ (Candle.low bar <= L <-> ~ In o (OrderManager.open_orders self'))
    /\ (Candle.low bar <= L <->
        exists f, In f (OrderManager.filled_orders self')
                  /\ fill_of eng cost md o f)
    /\ (forall f, fill_of eng cost md o f ->
                  Order.status f = "FILLED"%string
                  /\ Order.fill_price f == Qmin L (Candle.open bar)).
Proof.
  intros Hwf Ho Ht Hs Hp Hmd eng cost.
  pose proof (limit_buy_decision eng o L bar Ht Hs Hp) as Hd.
  assert (Hfo : fills_on eng md o = Qleb (Candle.low bar) L).
  { unfold fills_on. rewrite Hmd, Hd.
    destruct (Qleb (Candle.low bar) L); reflexivity. }
  destruct (process_orders_total self md w Hwf)
    as (fills & w' & Hrun & Hfills & _).
  fold eng cost in Hrun, Hfills.
  eexists _, w'. split; [exact Hrun|].
  cbn [OrderManager.open_orders OrderManager.filled_orders].
  assert (Hof : forall f, fill_of eng cost md o f ->
                          Candle.low bar <= L
                          /\ Order.status f = "FILLED"%string
                          /\ Order.fill_price f == Qmin L (Candle.open bar)).
  { intros f (bar' & p & now & Hmd' & Hd' & ->).
    rewrite Hmd in Hmd'. injection Hmd' as <-.
    rewrite Hd in Hd'.
    destruct (Qleb (Candle.low bar) L) eqn:E; [|discriminate].
    injection Hd' as <-. apply Qleb_le in E.
    split; [exact E|]. split; [reflexivity|]. cbn. apply py_min_Qmin. }
  split; [|split].
  - rewrite filter_In, Hfo. split.
    + intros Hle [_ Hn]. apply Qleb_le in Hle. rewrite Hle in Hn.
      discriminate.
    + intros Hn. destruct (Qleb (Candle.low bar) L) eqn:E.
      * apply Qleb_le, E.
      * exfalso. apply Hn. auto.
  - split.
    + intros Hle. apply Qleb_le in Hle.
      destruct (Forall2_In_l _ _ _ o Hfills) as (f & Hf & Hfo').
      { apply filter_In. split; [exact Ho | congruence]. }
      exists f. split; [|exact Hfo'].
      apply in_or_app. right. exact Hf.
    + intros (f & _ & Hf). apply (Hof f Hf).
  - intros f Hf. apply (Hof f Hf).
Qed.
End OrderBook.

Section OrderBookExamples.
Local Open Scope Q_scope.

Lemma limit_buy_fills_iff_witness :
  exists self' w',
    OrderManager.process_orders sample_book sample_market sample_world
    = Ok (self', w')
    /\ ~ In sample_limit_buy (OrderManager.open_orders self')
    /\ forall f,
         fill_of (SlippageModel.init 5) IndianTaxModel.init sample_market
                 sample_limit_buy f ->
         Order.fill_price f == 98.
Proof.
  assert (Hwf : Forall well_formed (OrderManager.open_orders sample_book)).
  { constructor; [right; eexists; reflexivity | constructor]. }
  assert (Hmd : sample_market !! Order.symbol sample_limit_buy
                = Some sample_bar) by (vm_compute; reflexivity).
  destruct (limit_buy_fills_iff sample_book sample_market sample_world
              sample_limit_buy 100 sample_bar Hwf (or_introl eq_refl)
              eq_refl eq_refl eq_refl Hmd)
    as (self' & w' & Hrun & Hopen & _ & Hprice).
  exists self', w'. split; [exact Hrun|]. split.
  - apply Hopen. vm_compute. congruence.
  - intros f Hf. destruct (Hprice f Hf) as [_ ->]. reflexivity.
Defined.
End OrderBookExamples.

Section OpenSet.
Local Open Scope Z_scope.

(** Every open order of a reachable manager has a positive quantity. *)
Lemma open_orders_positive (self : OrderManager.t) :
  reachable self ->
  Forall (fun o => 0 < Order.quantity o) (OrderManager.open_orders self).
Proof.
  induction 1 as [|self order _ IH|self self' md w w' _ IH Hrun|self _ IH].
  - constructor.
  - unfold OrderManager.place_order.
    destruct (Order.quantity order <=? 0) eqn:E; cbn; [exact IH|].
    apply Z.leb_gt in E. apply Forall_app. split; [exact IH|].
    repeat constructor. exact E.
  - apply process_orders_returns in Hrun.
    destruct Hrun as (fills & -> & _). cbn.
    rewrite Forall_forall in IH |- *.
    intros o Ho. apply list_elem_of_In, filter_In in Ho.
    apply IH, list_elem_of_In, Ho.
  - exact IH.
Qed.

(** C8. Submitting an order whose quantity is not positive marks it
    REJECTED, returns its id and leaves the open orders as they were;
    the order is not among them, and no open order of a manager
    reached through its methods has a non-positive quantity. *)
Theorem non_positive_quantity_rejected (self : OrderManager.t)
        (order : Order.t) :
  reachable self ->
  Order.quantity order <= 0 ->
  let r := OrderManager.place_order self order in
  Order.status r.1.2 = "REJECTED"%string
  /\ r.2 = Order.id order
  /\ r.1.1 = self
  /\ ~ In order (OrderManager.open_orders r.1.1)
  /\ ~ In r.1.2 (OrderManager.open_orders r.1.1)
  /\ Forall (fun o => 0 < Order.quantity o) (OrderManager.open_orders r.1.1).
Proof.
  intros Hreach Hq. unfold OrderManager.place_order.
  apply Z.leb_le in Hq. rewrite Hq. cbn.
  pose proof (open_orders_positive self Hreach) as Hpos.
  apply Z.leb_le in Hq.
  assert (Hnot : forall x, Order.quantity x = Order.quantity order ->
                           ~ In x (OrderManager.open_orders self)).
  { intros x Hx Hin. rewrite Forall_forall in Hpos.
    apply list_elem_of_In, Hpos in Hin. lia. }
  repeat apply conj; auto.
Qed.

Lemma non_positive_quantity_rejected_witness :
  let r := OrderManager.place_order OrderManager.init sample_null_order in
  Order.status r.1.2 = "REJECTED"%string
  /\ r.2 = Order.id sample_null_order
  /\ r.1.1 = OrderManager.init
  /\ ~ In sample_null_order (OrderManager.open_orders r.1.1)
  /\ ~ In r.1.2 (OrderManager.open_orders r.1.1)
  /\ Forall (fun o => 0 < Order.quantity o) (OrderManager.open_orders r.1.1).
Proof.
  apply (non_positive_quantity_rejected OrderManager.init sample_null_order).
  - constructor.
  - vm_compute. congruence.
Defined.
End OpenSet.

(** ** Operands of type [numpy.float64] *)

Section NumpyAgreement.
Local Open Scope Q_scope.

(** Away from the price 0 the sizer does the same on both kinds of
    operands. *)
Lemma np_calculate_quantity_agrees (self : PositionSizer.t)
      (capital price v : Q) :
  ~ price == 0 ->
  NumpyOperands.calculate_quantity self capital price v
  = PositionSizer.calculate_quantity self capital price v.
Proof.
  intros Hp. unfold NumpyOperands.calculate_quantity,
    PositionSizer.calculate_quantity, np_int_floordiv, py_floordiv.
  apply Qeq_bool_false in Hp. rewrite Hp. reflexivity.
Qed.


End NumpyAgreement.

(** ** The simulation loop *)

Section Engine.
Local Open Scope Q_scope.
Import BacktestEngine.




Lemma place_order_positive (self : OrderManager.t) (order : Order.t) :
  (0 < Order.quantity order)%Z ->
  (OrderManager.place_order self order).1.1
  = OrderManager.mk (OrderManager.open_orders self ++ [order])
      (OrderManager.filled_orders self)
      (OrderManager.slippage_engine self) (OrderManager.cost_engine self).
Proof.
  intros Hq. unfold OrderManager.place_order.
  apply Z.leb_gt in Hq. rewrite Hq. reflexivity.
Qed.



End Engine.

Section LookAhead.
Local Open Scope Q_scope.
Import BacktestEngine.



End LookAhead.


(** ** Round trips in the ledger *)

Section RoundTrip.
Local Open Scope Q_scope.
Import BacktestEngine.

(** A BUY fill followed by a SELL fill appends one record; its
    quantity is that of the SELL fill; the fees it subtracts are those
    of the SELL fill alone, while the cash has paid the fees of both
    fills. *)
Lemma handle_buy_then_sell (self self1 self2 : BacktestEngine.t)
      (b s : Order.t) :
  Order.side b = "BUY"%string ->
  Order.side s = "SELL"%string ->
  _handle_fill self b = Ok self1 ->
  _handle_fill self1 s = Ok self2 ->
  exists r,
    TradeLedger.trades (ledger self2) = TradeLedger.trades (ledger self) ++ [r]
    /\ TradeRecord.quantity r = Order.quantity s
    /\ TradeRecord.entry_price r = Order.fill_price b
    /\ TradeRecord.exit_price r = Order.fill_price s
    /\ TradeRecord.fees r = Order.fees s
    /\ TradeRecord.net_pnl r
       = (Order.fill_price s - Order.fill_price b)
         * inject_Z (Order.quantity s) - Order.fees s
    /\ cash self2
       = cash self
         - (inject_Z (Order.quantity b) * Order.fill_price b + Order.fees b)
         + (inject_Z (Order.quantity s) * Order.fill_price s - Order.fees s).
Proof.
  intros Hb Hs. unfold _handle_fill. rewrite Hb, Hs. cbn.
  intros [= <-]. cbn.
  unfold TradeLedger.log_trade. cbn.
  destruct (if Qltb 0 (Order.fill_price b) then _ else _) as [pct|];
    cbn; [|discriminate].
  intros [= <-]. cbn. eexists. split; [reflexivity|]. cbn.
  repeat apply conj; reflexivity.
Qed.

(** C2, on the code.  Over the three bars of [round_trip_rows] the
    engine buys 8399 shares at 100.05 and sells them at 109.945.  One
    record is logged, for 8399 shares; its net PnL subtracts the fees
    of the SELL fill only, although the BUY fill was charged fees as
    well, and so differs from the change in cash, which pays both. *)
Theorem round_trip_net_pnl_omits_entry_fees :
  let entry_fees :=
    TradeCost.total_cost
      (IndianTaxModel.calculate_default IndianTaxModel.init 100.05 8399
         "BUY") in
  let exit_fees :=
    TradeCost.total_cost
      (IndianTaxModel.calculate_default IndianTaxModel.init 109.945 8399
         "SELL") in
  exists self' w' r,
    simulation_loop round_trip_rows (init "RELIANCE.NS" 1000000)
      sample_world = Ok (self', w')
    /\ TradeLedger.trades (ledger self') = [r]
    /\ TradeRecord.quantity r = 8399%Z
    /\ TradeRecord.entry_price r == 100.05
    /\ TradeRecord.exit_price r == 109.945
    /\ 0 < entry_fees
    /\ TradeRecord.net_pnl r == (109.945 - 100.05) * 8399 - exit_fees
    /\ ~ TradeRecord.net_pnl r
         == (109.945 - 100.05) * 8399 - (entry_fees + exit_fees)
    /\ cash self' - 1000000
       == (109.945 - 100.05) * 8399 - (entry_fees + exit_fees).
Proof.
  cbn zeta. eexists _, _, _.
  split; [vm_compute; reflexivity|].
  split; [reflexivity|].
  repeat apply conj; vm_compute; congruence.
Qed.
End RoundTrip.

(** * Further properties of the code *)

(** ** Order types *)

Section OrderTypes.
Local Open Scope Q_scope.

(** What a pass does to one order of a book whose orders carry the
    prices they need, given what the fill test says of it. *)
Lemma order_outcome (self : OrderManager.t) (md : gmap string Candle.t)
      (w : World) (o : Order.t) (bar : Candle.t) (b : bool) (p : Q) :
  Forall well_formed (OrderManager.open_orders self) ->
  In o (OrderManager.open_orders self) ->
  md !! Order.symbol o = Some bar ->
  OrderManager.fill_decision (OrderManager.slippage_engine self) o bar
  = Ok (b, p) ->
  let eng := OrderManager.slippage_engine self in
  let cost := OrderManager.cost_engine self in
  exists self' w',
    OrderManager.process_orders self md w = Ok (self', w')
    /\ (b = true <-> ~ In o (OrderManager.open_orders self'))
    /\ (b = true <->
        exists f, In f (OrderManager.filled_orders self')
                  /\ fill_of eng cost md o f)
    /\ (forall f, fill_of eng cost md o f ->
                  b = true
                  /\ Order.status f = "FILLED"%string
                  /\ Order.fill_price f = p
                  /\ Order.fees f
                     = TradeCost.total_cost
                         (IndianTaxModel.calculate cost p (Order.quantity o)
                            (Order.side o) "EQUITY")).
Proof.
  intros Hwf Ho Hmd Hd eng cost.
  assert (Hfo : fills_on eng md o = b).
  { unfold fills_on. fold eng in Hd. rewrite Hmd, Hd. destruct b; reflexivity. }
  destruct (process_orders_total self md w Hwf)
    as (fills & w' & Hrun & Hfills & _).
  fold eng cost in Hrun, Hfills.
  eexists _, w'. split; [exact Hrun|].
  cbn [OrderManager.open_orders OrderManager.filled_orders].
  assert (Hof : forall f, fill_of eng cost md o f ->
                          b = true
                          /\ Order.status f = "FILLED"%string
                          /\ Order.fill_price f = p
                          /\ Order.fees f
                             = TradeCost.total_cost
                                 (IndianTaxModel.calculate cost p
                                    (Order.quantity o) (Order.side o)
                                    "EQUITY")).
  { intros f (bar' & p' & now & Hmd' & Hd' & ->).
    rewrite Hmd in Hmd'. injection Hmd' as <-.
    fold eng in Hd. rewrite Hd in Hd'. injection Hd' as -> ->.
    repeat split. }
  split; [|split].
  - rewrite filter_In, Hfo. split.
    + intros -> [_ Hn]. discriminate.
    + intros Hn. destruct b; [reflexivity|]. exfalso. apply Hn. auto.
  - split.
    + intros ->.
      destruct (Forall2_In_l _ _ _ o Hfills) as (f & Hf & Hfo').
      { apply filter_In. split; [exact Ho | exact Hfo]. }
      exists f. split; [|exact Hfo'].
      apply in_or_app. right. exact Hf.
    + intros (f & _ & Hf). apply (Hof f Hf).
  - intros f Hf. apply (Hof f Hf).
Qed.

(** X1. An open LIMIT SELL order with limit [L] is filled by a bar of
    its symbol if and only if the high of the bar is at least [L], at
    the larger of [L] and the open of the bar. *)
Theorem limit_sell_fills_iff (self : OrderManager.t)
        (md : gmap string Candle.t) (w : World) (o : Order.t) (L : Q)
        (bar : Candle.t) :
  Forall well_formed (OrderManager.open_orders self) ->
  In o (OrderManager.open_orders self) ->
  Order.order_type o = "LIMIT"%string ->
  Order.side o = "SELL"%string ->
  Order.price o = Some L ->
  md !! Order.symbol o = Some bar ->
  let eng := OrderManager.slippage_engine self in
  let cost := OrderManager.cost_engine self in
  exists self' w',
    OrderManager.process_orders self md w = Ok (self', w')
    /\ (L <= Candle.high bar <-> ~ In o (OrderManager.open_orders self'))
    /\ (L <= Candle.high bar <->
        exists f, In f (OrderManager.filled_orders self')
                  /\ fill_of eng cost md o f)
    /\ (forall f, fill_of eng cost md o f ->
                  Order.status f = "FILLED"%string
                  /\ Order.fill_price f == Qmax L (Candle.open bar)).
Proof.
  intros Hwf Ho Ht Hs Hp Hmd eng cost.
  assert (Hd : OrderManager.fill_decision eng o bar
               = Ok (Qleb L (Candle.high bar),
                     if Qleb L (Candle.high bar)
                     then py_max L (Candle.open bar) else 0)).
  { unfold OrderManager.fill_decision. rewrite Ht, Hs, Hp. cbn.
    destruct (Qleb L (Candle.high bar)); reflexivity. }
  destruct (order_outcome self md w o bar _ _ Hwf Ho Hmd Hd)
    as (self' & w' & Hrun & Hopen & Hfilled & Hfill).
  exists self', w'. split; [exact Hrun|].
  rewrite <- Qleb_le. split; [exact Hopen|]. split; [exact Hfilled|].
  intros f Hf. destruct (Hfill f Hf) as (Hb & Hst & Hpr & _).
  split; [exact Hst|]. rewrite Hpr, Hb. apply py_max_Qmax.
Qed.
End OrderTypes.

Section StopAndMarketOrders.
Local Open Scope Q_scope.

(** X2. An open STOP BUY order with stop price [S] is filled by a bar
    of its symbol if and only if the high of the bar reaches [S]; it
    fills at [S] raised by the base slippage, not at the high. *)
Theorem stop_buy_fills_iff (self : OrderManager.t)
        (md : gmap string Candle.t) (w : World) (o : Order.t) (S : Q)
        (bar : Candle.t) :
  Forall well_formed (OrderManager.open_orders self) ->
  In o (OrderManager.open_orders self) ->
  Order.order_type o = "STOP"%string ->
  Order.side o = "BUY"%string ->
  Order.price o = Some S ->
  md !! Order.symbol o = Some bar ->
  let eng := OrderManager.slippage_engine self in
  let cost := OrderManager.cost_engine self in
  exists self' w',
    OrderManager.process_orders self md w = Ok (self', w')
    /\ (S <= Candle.high bar <-> ~ In o (OrderManager.open_orders self'))
    /\ (S <= Candle.high bar <->
        exists f, In f (OrderManager.filled_orders self')
                  /\ fill_of eng cost md o f)
    /\ (forall f, fill_of eng cost md o f ->
                  Order.status f = "FILLED"%string
                  /\ Order.fill_price f
                     == S * (1 + SlippageModel.base_slippage eng)).
Proof.
  intros Hwf Ho Ht Hs Hp Hmd eng cost.
  assert (Hd : OrderManager.fill_decision eng o bar
               = Ok (Qleb S (Candle.high bar),
                     if Qleb S (Candle.high bar)
                     then S * (1 + SlippageModel.base_slippage eng) else 0)).
  { unfold OrderManager.fill_decision. rewrite Ht, Hs, Hp. cbn.
    destruct (Qleb S (Candle.high bar)); reflexivity. }
  destruct (order_outcome self md w o bar _ _ Hwf Ho Hmd Hd)
    as (self' & w' & Hrun & Hopen & Hfilled & Hfill).
  exists self', w'. split; [exact Hrun|].
  rewrite <- Qleb_le. split; [exact Hopen|]. split; [exact Hfilled|].
  intros f Hf. destruct (Hfill f Hf) as (Hb & Hst & Hpr & _).
  split; [exact Hst|]. rewrite Hpr, Hb. reflexivity.
Qed.

Lemma stop_buy_fills_iff_witness :
  exists self' w',
    OrderManager.process_orders (book_of [sample_stop_buy]) sample_market
      sample_world = Ok (self', w')
    /\ ~ In sample_stop_buy (OrderManager.open_orders self')
    /\ forall f,
         fill_of (SlippageModel.init 5) IndianTaxModel.init sample_market
                 sample_stop_buy f ->
         Order.fill_price f == 100.05.
Proof.
  assert (Hwf : Forall well_formed
                  (OrderManager.open_orders (book_of [sample_stop_buy]))).
  { constructor; [right; eexists; reflexivity | constructor]. }
  assert (Hmd : sample_market !! Order.symbol sample_stop_buy
                = Some sample_bar) by (vm_compute; reflexivity).
  destruct (stop_buy_fills_iff (book_of [sample_stop_buy]) sample_market
              sample_world sample_stop_buy 100 sample_bar Hwf
              (or_introl eq_refl) eq_refl eq_refl eq_refl Hmd)
    as (self' & w' & Hrun & Hopen & _ & Hprice).
  exists self', w'. split; [exact Hrun|]. split.
  - apply Hopen. vm_compute. congruence.
  - intros f Hf. destruct (Hprice f Hf) as [_ ->]. reflexivity.
Defined.

(** X3. An open STOP SELL order with stop price [S] is filled by a bar
    of its symbol if and only if the low of the bar reaches [S]; it
    fills at [S] lowered by the base slippage, however far below [S]
    the bar went. *)
Theorem stop_sell_fills_iff (self : OrderManager.t)
        (md : gmap string Candle.t) (w : World) (o : Order.t) (S : Q)
        (bar : Candle.t) :
  Forall well_formed (OrderManager.open_orders self) ->
  In o (OrderManager.open_orders self) ->
  Order.order_type o = "STOP"%string ->
  Order.side o = "SELL"%string ->
  Order.price o = Some S ->
  md !! Order.symbol o = Some bar ->
  let eng := OrderManager.slippage_engine self in
  let cost := OrderManager.cost_engine self in
  exists self' w',
    OrderManager.process_orders self md w = Ok (self', w')
    /\ (Candle.low bar <= S <-> ~ In o (OrderManager.open_orders self'))
    /\ (Candle.low bar <= S <->
        exists f, In f (OrderManager.filled_orders self')
                  /\ fill_of eng cost md o f)
    /\ (forall f, fill_of eng cost md o f ->
                  Order.status f = "FILLED"%string
                  /\ Order.fill_price f
                     == S * (1 - SlippageModel.base_slippage eng)).
Proof.
  intros Hwf Ho Ht Hs Hp Hmd eng cost.
  assert (Hd : OrderManager.fill_decision eng o bar
               = Ok (Qleb (Candle.low bar) S,
                     if Qleb (Candle.low bar) S
                     then S * (1 - SlippageModel.base_slippage eng) else 0)).
  { unfold OrderManager.fill_decision. rewrite Ht, Hs, Hp. cbn.
    destruct (Qleb (Candle.low bar) S); reflexivity. }
  destruct (order_outcome self md w o bar _ _ Hwf Ho Hmd Hd)
    as (self' & w' & Hrun & Hopen & Hfilled & Hfill).
  exists self', w'. split; [exact Hrun|].
  rewrite <- Qleb_le. split; [exact Hopen|]. split; [exact Hfilled|].
  intros f Hf. destruct (Hfill f Hf) as (Hb & Hst & Hpr & _).
  split; [exact Hst|]. rewrite Hpr, Hb. reflexivity.
Qed.

Lemma stop_sell_fills_iff_witness :
  exists self' w',
    OrderManager.process_orders (book_of [sample_stop_sell]) sample_market
      sample_world = Ok (self', w')
    /\ ~ In sample_stop_sell (OrderManager.open_orders self')
    /\ forall f,
         fill_of (SlippageModel.init 5) IndianTaxModel.init sample_market
                 sample_stop_sell f ->
         Order.fill_price f == 99.95.
Proof.
  assert (Hwf : Forall well_formed
                  (OrderManager.open_orders (book_of [sample_stop_sell]))).
  { constructor; [right; eexists; reflexivity | constructor]. }
  assert (Hmd : sample_market !! Order.symbol sample_stop_sell
                = Some sample_bar) by (vm_compute; reflexivity).
  destruct (stop_sell_fills_iff (book_of [sample_stop_sell]) sample_market
              sample_world sample_stop_sell 100 sample_bar Hwf
              (or_introl eq_refl) eq_refl eq_refl eq_refl Hmd)
    as (self' & w' & Hrun & Hopen & _ & Hprice).
  exists self', w'. split; [exact Hrun|]. split.
  - apply Hopen. vm_compute. congruence.
  - intros f Hf. destruct (Hprice f Hf) as [_ ->]. reflexivity.
Defined.

(** X4. An open MARKET order is filled by every bar of its symbol, at
    the close of the bar moved by the base slippage: up for the side
    ["BUY"], down for any other side. *)
Theorem market_order_always_fills (self : OrderManager.t)
        (md : gmap string Candle.t) (w : World) (o : Order.t)
        (bar : Candle.t) :
  Forall well_formed (OrderManager.open_orders self) ->
  In o (OrderManager.open_orders self) ->
  Order.order_type o = "MARKET"%string ->
  md !! Order.symbol o = Some bar ->
  let eng := OrderManager.slippage_engine self in
  let cost := OrderManager.cost_engine self in
  exists self' w' f,
    OrderManager.process_orders self md w = Ok (self', w')
    /\ ~ In o (OrderManager.open_orders self')
    /\ In f (OrderManager.filled_orders self')
    /\ fill_of eng cost md o f
    /\ Order.status f = "FILLED"%string
    /\ (Order.side o = "BUY"%string ->
        Order.fill_price f
        == Candle.close bar * (1 + SlippageModel.base_slippage eng))
    /\ (Order.side o <> "BUY"%string ->
        Order.fill_price f
        == Candle.close bar * (1 - SlippageModel.base_slippage eng)).
Proof.
  intros Hwf Ho Ht Hmd eng cost.
  assert (Hd : OrderManager.fill_decision eng o bar
               = Ok (true, SlippageModel.calculate_fill_price eng
                             (Candle.close bar) (Order.side o) None)).
  { unfold OrderManager.fill_decision. rewrite Ht. reflexivity. }
  destruct (order_outcome self md w o bar _ _ Hwf Ho Hmd Hd)
    as (self' & w' & Hrun & Hopen & Hfilled & Hfill).
  destruct (proj1 Hfilled eq_refl) as (f & Hf & Hof).
  destruct (Hfill f Hof) as (_ & Hst & Hpr & _).
  exists self', w', f. split; [exact Hrun|].
  split; [apply Hopen; reflexivity|].
  split; [exact Hf|]. split; [exact Hof|]. split; [exact Hst|].
  rewrite Hpr. unfold SlippageModel.calculate_fill_price. cbn. split.
  - intros ->. reflexivity.
  - intros Hne. apply String.eqb_neq in Hne. rewrite Hne. reflexivity.
Qed.

Lemma market_order_always_fills_witness :
  exists self' w' f,
    OrderManager.process_orders (book_of [sample_market_sell]) sample_market
      sample_world = Ok (self', w')
    /\ In f (OrderManager.filled_orders self')
    /\ Order.fill_price f == 99.95.
Proof.
  assert (Hwf : Forall well_formed
                  (OrderManager.open_orders (book_of [sample_market_sell]))).
  { constructor; [left; reflexivity | constructor]. }
  assert (Hmd : sample_market !! Order.symbol sample_market_sell
                = Some sample_bar) by (vm_compute; reflexivity).
  destruct (market_order_always_fills (book_of [sample_market_sell])
              sample_market sample_world sample_market_sell sample_bar Hwf
              (or_introl eq_refl) eq_refl Hmd)
    as (self' & w' & f & Hrun & _ & Hf & _ & _ & _ & Hprice).
  exists self', w', f. split; [exact Hrun|]. split; [exact Hf|].
  rewrite Hprice by (vm_compute; congruence). reflexivity.
Defined.
End StopAndMarketOrders.

Section LimitSellExample.
Local Open Scope Q_scope.

Lemma limit_sell_fills_iff_witness :
  exists self' w',
    OrderManager.process_orders (book_of [sample_limit_sell]) sample_market
      sample_world = Ok (self', w')
    /\ ~ In sample_limit_sell (OrderManager.open_orders self')
    /\ forall f,
         fill_of (SlippageModel.init 5) IndianTaxModel.init sample_market
                 sample_limit_sell f ->
         Order.fill_price f == 100.
Proof.
  assert (Hwf : Forall well_formed
                  (OrderManager.open_orders (book_of [sample_limit_sell]))).
  { constructor; [right; eexists; reflexivity | constructor]. }
  assert (Hmd : sample_market !! Order.symbol sample_limit_sell
                = Some sample_bar) by (vm_compute; reflexivity).
  destruct (limit_sell_fills_iff (book_of [sample_limit_sell]) sample_market
              sample_world sample_limit_sell 100 sample_bar Hwf
              (or_introl eq_refl) eq_refl eq_refl eq_refl Hmd)
    as (self' & w' & Hrun & Hopen & _ & Hprice).
  exists self', w'. split; [exact Hrun|]. split.
  - apply Hopen. vm_compute. congruence.
  - intros f Hf. destruct (Hprice f Hf) as [_ ->]. reflexivity.
Defined.
End LimitSellExample.

(** ** A pass over the book *)

Section Pass.
Local Open Scope Q_scope.

Lemma fills_keep_ids (eng : SlippageModel.t) (cost : IndianTaxModel.t)
      (md : gmap string Candle.t) (l fills : list Order.t) :
  Forall2 (fill_of eng cost md) l fills ->
  map Order.id fills = map Order.id l
  /\ map Order.quantity fills = map Order.quantity l
  /\ Forall (fun f => Order.status f = "FILLED"%string) fills.
Proof.
  induction 1 as [|o f l fills (bar & p & now & _ & _ & ->) _ IH]; cbn.
  - repeat split; constructor.
  - destruct IH as (-> & -> & IH). repeat split. constructor; auto.
Qed.

(** X5. A pass over a book whose orders carry the prices they need
    returns; the orders the bars do not fill stay open in submission
    order; the filled ones are queued behind the earlier fills, in
    submission order, marked FILLED, with their ids and quantities; no
    order is lost or duplicated. *)
Theorem process_orders_fifo (self : OrderManager.t)
        (md : gmap string Candle.t) (w : World) :
  Forall well_formed (OrderManager.open_orders self) ->
  let eng := OrderManager.slippage_engine self in
  let book := OrderManager.open_orders self in
  exists self' w' fills,
    OrderManager.process_orders self md w = Ok (self', w')
    /\ OrderManager.open_orders self'
       = List.filter (fun o => negb (fills_on eng md o)) book
    /\ OrderManager.filled_orders self'
       = OrderManager.filled_orders self ++ fills
    /\ map Order.id fills = map Order.id (List.filter (fills_on eng md) book)
    /\ map Order.quantity fills
       = map Order.quantity (List.filter (fills_on eng md) book)
    /\ Forall (fun f => Order.status f = "FILLED"%string) fills
    /\ (length (OrderManager.open_orders self') + length fills
        = length book)%nat.
Proof.
  intros Hwf eng book.
  destruct (process_orders_total self md w Hwf)
    as (fills & w' & Hrun & Hfills & _).
  fold eng book in Hrun, Hfills.
  destruct (fills_keep_ids _ _ _ _ _ Hfills) as (Hid & Hq & Hst).
  eexists _, w', fills. split; [exact Hrun|]. cbn.
  repeat apply conj; auto.
  rewrite <- (Forall2_length _ _ _ Hfills).
  rewrite Nat.add_comm. apply filter_length.
Qed.

Lemma process_orders_fifo_witness :
  exists self' w' fills,
    OrderManager.process_orders
      (book_of [sample_limit_buy; sample_stop_buy; sample_market_sell])
      sample_market sample_world = Ok (self', w')
    /\ OrderManager.filled_orders self' = fills
    /\ (length (OrderManager.open_orders self') + length fills = 3)%nat.
Proof.
  assert (Hwf : Forall well_formed
                  [sample_limit_buy; sample_stop_buy; sample_market_sell]).
  { constructor; [right; eexists; reflexivity|].
    constructor; [right; eexists; reflexivity|].
    constructor; [left; reflexivity | constructor]. }
  destruct (process_orders_fifo
              (book_of [sample_limit_buy; sample_stop_buy; sample_market_sell])
              sample_market sample_world Hwf)
    as (self' & w' & fills & Hrun & _ & Hq & _ & _ & _ & Hlen).
  exists self', w', fills. auto.
Defined.

(** The fill test raises exactly on the orders that are compared
    without a price. *)
Lemma raises_on_iff (eng : SlippageModel.t) (md : gmap string Candle.t)
      (o : Order.t) :
  raises_on eng md o = true <-> compared_without_price md o.
Proof.
  unfold raises_on, compared_without_price.
  destruct (md !! Order.symbol o) as [bar|].
  - unfold OrderManager.fill_decision.
    destruct (String.eqb_spec (Order.order_type o) "MARKET") as [Em|Em].
    { split; [discriminate|]. intros (_ & _ & [Ht|Ht] & _); congruence. }
    destruct (String.eqb_spec (Order.order_type o) "LIMIT") as [El|El];
      destruct (String.eqb_spec (Order.order_type o) "STOP") as [Es|Es];
      destruct (String.eqb_spec (Order.side o) "BUY") as [Eb|Eb];
      destruct (String.eqb_spec (Order.side o) "SELL") as [Ess|Ess];
      try congruence;
      destruct (Order.price o) as [p|]; cbn;
      repeat match goal with
             | |- context [Qleb ?a ?b] => destruct (Qleb a b)
             end;
      split; try discriminate;
      try (intros (_ & Hp & _); discriminate);
      try (intros (_ & _ & [Ht|Ht] & [Hs|Hs]); congruence);
      try (intros _; split; [eexists; reflexivity|]; auto).
  - split; [discriminate|]. intros ([bar Hb] & _). discriminate.
Qed.

(** A pass that meets an order it cannot compare raises, whatever
    happened to the orders before it. *)
Lemma process_loop_raises (md : gmap string Candle.t) (eng : SlippageModel.t)
      (cost : IndianTaxModel.t) (snapshot : list Order.t) :
  Exists (fun o => raises_on eng md o = true) snapshot ->
  forall (pre filled : list Order.t) (w : World),
    Forall (fun y => fills_on eng md y = false) pre ->
    OrderManager.process_loop md snapshot
      (OrderManager.mk (pre ++ snapshot) filled eng cost) w
    = Raise TypeError.
Proof.
  induction snapshot as [|o rest IH]; intros Hex pre filled w Hpre.
  - inversion Hex.
  - assert (Hassoc : pre ++ o :: rest = (pre ++ [o]) ++ rest)
      by (rewrite <- app_assoc; reflexivity).
    destruct (md !! Order.symbol o) as [bar|] eqn:Hmd.
    + destruct (OrderManager.fill_decision eng o bar) as [[[|] p]|e] eqn:Hd.
      * assert (Hf : fills_on eng md o = true)
          by (unfold fills_on; rewrite Hmd, Hd; reflexivity).
        assert (Hrest : Exists (fun o => raises_on eng md o = true) rest).
        { inversion Hex as [? ? Ho|]; [|assumption].
          unfold raises_on in Ho. rewrite Hmd, Hd in Ho. discriminate. }
        rewrite (process_loop_fill md o rest (pre ++ rest)
                   (OrderManager.mk (pre ++ o :: rest) filled eng cost)
                   w bar p Hmd Hd)
          by (apply list_remove_middle;
              apply (kept_not_equal_to_filled eng md); assumption).
        apply (IH Hrest). exact Hpre.
      * assert (Hf : fills_on eng md o = false)
          by (unfold fills_on; rewrite Hmd, Hd; reflexivity).
        assert (Hrest : Exists (fun o => raises_on eng md o = true) rest).
        { inversion Hex as [? ? Ho|]; [|assumption].
          unfold raises_on in Ho. rewrite Hmd, Hd in Ho. discriminate. }
        rewrite (process_loop_no_fill md o rest
                   (OrderManager.mk (pre ++ o :: rest) filled eng cost)
                   w bar p Hmd Hd), Hassoc.
        apply (IH Hrest).
        apply Forall_app. split; [exact Hpre | repeat constructor; exact Hf].
      * rewrite (process_loop_raise md o rest
                   (OrderManager.mk (pre ++ o :: rest) filled eng cost)
                   w bar e Hmd Hd).
        apply fill_decision_raises in Hd. destruct Hd as [-> _].
        reflexivity.
    + assert (Hf : fills_on eng md o = false)
        by (unfold fills_on; rewrite Hmd; reflexivity).
      assert (Hrest : Exists (fun o => raises_on eng md o = true) rest).
      { inversion Hex as [? ? Ho|]; [|assumption].
        unfold raises_on in Ho. rewrite Hmd in Ho. discriminate. }
      rewrite (process_loop_no_bar md o rest _ w Hmd), Hassoc.
      apply (IH Hrest).
      apply Forall_app. split; [exact Hpre | repeat constructor; exact Hf].
Qed.

(** X6. A pass raises [TypeError] when some open order whose symbol has
    a bar is a LIMIT or STOP order on the BUY or the SELL side without
    a price, and returns otherwise. *)
Theorem process_orders_type_error (self : OrderManager.t)
        (md : gmap string Candle.t) (w : World) :
  (Exists (compared_without_price md) (OrderManager.open_orders self) ->
   OrderManager.process_orders self md w = Raise TypeError)
  /\ (~ Exists (compared_without_price md) (OrderManager.open_orders self) ->
      exists self' w', OrderManager.process_orders self md w = Ok (self', w')).
Proof.
  split.
  - intros Hex. destruct self as [book filled eng cost].
    unfold OrderManager.process_orders. cbn.
    apply (process_loop_raises md eng cost book) with (pre := []);
      [|constructor].
    apply Exists_exists in Hex. destruct Hex as (o & Ho & Hc).
    apply Exists_exists. exists o. split; [exact Ho|].
    apply raises_on_iff, Hc.
  - intros Hn. pose proof (process_orders_run self md w) as Hrun.
    cbn zeta in Hrun.
    destruct Hrun as [[Hex _] | (fills & w' & Hr & _)].
    + exfalso. apply Hn. apply Exists_exists in Hex.
      destruct Hex as (o & Ho & Hr). apply Exists_exists. exists o.
      split; [exact Ho|].
      apply (raises_on_iff (OrderManager.slippage_engine self) md o), Hr.
    + eauto.
Qed.

Lemma process_orders_type_error_witness :
  OrderManager.process_orders
    (book_of [sample_limit_buy; sample_unpriced_limit]) sample_market
    sample_world = Raise TypeError.
Proof.
  apply (proj1 (process_orders_type_error
                  (book_of [sample_limit_buy; sample_unpriced_limit])
                  sample_market sample_world)).
  apply Exists_cons_tl, Exists_cons_hd.
  split; [eexists; vm_compute; reflexivity|]. cbn. auto.
Defined.

(** A pass over orders for which there is no bar. *)
Lemma process_loop_without_bars (md : gmap string Candle.t)
      (snapshot : list Order.t) (self : OrderManager.t) (w : World) :
  Forall (fun o => md !! Order.symbol o = None) snapshot ->
  OrderManager.process_loop md snapshot self w = Ok (self, w).
Proof.
  induction 1 as [|o rest Ho _ IH]; [reflexivity|].
  rewrite (process_loop_no_bar md o rest self w Ho). exact IH.
Qed.

(** X7. When the market data has no bar for the symbol of any open
    order, a pass changes nothing and reads no clock, even if an order
    lacks the price its type requires. *)
Theorem process_orders_without_bars (self : OrderManager.t)
        (md : gmap string Candle.t) (w : World) :
  Forall (fun o => md !! Order.symbol o = None)
         (OrderManager.open_orders self) ->
  OrderManager.process_orders self md w = Ok (self, w).
Proof.
  intros H. unfold OrderManager.process_orders.
  apply process_loop_without_bars, H.
Qed.

Lemma process_orders_without_bars_witness :
  OrderManager.process_orders
    (book_of [sample_unpriced_limit; sample_market_sell]) ∅ sample_world
  = Ok (book_of [sample_unpriced_limit; sample_market_sell], sample_world).
Proof.
  apply (process_orders_without_bars
           (book_of [sample_unpriced_limit; sample_market_sell]) ∅
           sample_world).
  repeat constructor.
Defined.
End Pass.

(** ** Costs and slippage *)

Section CostBounds.
Local Open Scope Q_scope.
Import TradeCost.

Lemma turnover_nonneg (price : Q) (quantity : Z) :
  0 <= price -> (0 <= quantity)%Z -> 0 <= price * inject_Z quantity.
Proof.
  intros Hp Hq. apply Qmult_le_0_compat; [exact Hp|].
  change 0 with (inject_Z 0). rewrite <- Zle_Qle. exact Hq.
Qed.

(** X8. For a non-negative price and quantity, whatever the side and
    the asset type, the charges are not negative, the brokerage is at
    most 20, and the total is at most 0.154589 percent of the turnover
    and at most 23.6 plus 0.119189 percent of the turnover. *)
Theorem total_cost_bounds (price : Q) (quantity : Z)
        (side asset_type : string) :
  0 <= price -> (0 <= quantity)%Z ->
  let c := IndianTaxModel.calculate IndianTaxModel.init price quantity
                                    side asset_type in
  let turnover := price * inject_Z quantity in
  0 <= total_cost c
  /\ Brokerage (breakdown c) <= 20
  /\ total_cost c <= 0.00154589 * turnover
  /\ total_cost c <= 23.6 + 0.00119189 * turnover.
Proof.
  intros Hp Hq. cbn zeta.
  pose proof (turnover_nonneg price quantity Hp Hq) as Ht.
  unfold IndianTaxModel.calculate. cbn.
  set (t := price * inject_Z quantity) in *.
  pose proof (py_min_le_l (t * 0.0003) 20) as Hb1.
  pose proof (py_min_le_r (t * 0.0003) 20) as Hb2.
  assert (Hb0 : 0 <= py_min (t * 0.0003) 20).
  { unfold py_min. destruct (Qltb 20 (t * 0.0003)); lra. }
  set (b := py_min (t * 0.0003) 20) in *.
  destruct (String.eqb asset_type "EQUITY");
    destruct (String.eqb asset_type "INTRADAY" && String.eqb side "SELL");
    destruct (String.eqb side "BUY");
    repeat apply conj; lra.
Qed.

Lemma total_cost_bounds_witness :
  let c := IndianTaxModel.calculate IndianTaxModel.init 2500 40
                                    "SELL" "INTRADAY" in
  0 <= total_cost c
  /\ Brokerage (breakdown c) <= 20
  /\ total_cost c <= 0.00154589 * (2500 * inject_Z 40)
  /\ total_cost c <= 23.6 + 0.00119189 * (2500 * inject_Z 40).
Proof.
  apply (total_cost_bounds 2500 40 "SELL" "INTRADAY");
    vm_compute; congruence.
Defined.

(** X9. On the same price and quantity an EQUITY BUY costs more than an
    EQUITY SELL by the stamp duty, 0.015 percent of the turnover, and
    an INTRADAY SELL costs more than an INTRADAY BUY by 0.01 percent of
    the turnover. *)
Theorem buy_and_sell_costs_differ (self : IndianTaxModel.t) (price : Q)
        (quantity : Z) :
  let turnover := price * inject_Z quantity in
  total_cost (IndianTaxModel.calculate self price quantity "BUY" "EQUITY")
  - total_cost (IndianTaxModel.calculate self price quantity "SELL" "EQUITY")
  == 0.00015 * turnover
  /\ total_cost (IndianTaxModel.calculate self price quantity "SELL" "INTRADAY")
     - total_cost (IndianTaxModel.calculate self price quantity "BUY" "INTRADAY")
     == 0.0001 * turnover.
Proof.
  cbn zeta. unfold IndianTaxModel.calculate. cbn. split; ring.
Qed.
End CostBounds.

Section SlippagePenalty.
Local Open Scope Q_scope.

(** X10. A volatility above 0.01 doubles the distance between the fill
    and the target; a volatility of at most 0.01, like no volatility,
    leaves it as it is. *)
Theorem volatility_doubles_slippage (self : SlippageModel.t) (p : Q)
        (side : string) (v : Q) :
  (0.01 < v ->
   SlippageModel.calculate_fill_price self p side (Some v) - p
   == 2 * (SlippageModel.calculate_fill_price self p side None - p))
  /\ (v <= 0.01 ->
      SlippageModel.calculate_fill_price self p side (Some v)
      = SlippageModel.calculate_fill_price self p side None).
Proof.
  unfold SlippageModel.calculate_fill_price, SlippageModel.volatility_penalty.
  split; intros Hv.
  - assert (E1 : Qltb 0.01 v = true) by (apply Qltb_lt, Hv).
    assert (E2 : Qeq_bool v 0 = false) by (apply Qeq_bool_false; lra).
    rewrite E1, E2. cbn. destruct (String.eqb side "BUY"); ring.
  - assert (E1 : Qltb 0.01 v = false) by (apply Qltb_ge, Hv).
    rewrite E1, andb_false_r. reflexivity.
Qed.

Lemma volatility_doubles_slippage_witness :
  SlippageModel.calculate_fill_price (SlippageModel.init 5) 100 "BUY"
    (Some 0.02) - 100
  == 2 * (SlippageModel.calculate_fill_price (SlippageModel.init 5) 100
            "BUY" None - 100).
Proof.
  apply (proj1 (volatility_doubles_slippage (SlippageModel.init 5) 100
                  "BUY" 0.02)).
  vm_compute. reflexivity.
Defined.
End SlippagePenalty.

(** ** Position sizes *)

Section SizeBounds.
Local Open Scope Q_scope.

Lemma np_sqrt_252_pos : 0 < np_sqrt_252.
Proof. vm_compute. reflexivity. Qed.

Lemma vol_scalar_of_nonneg (self : PositionSizer.t) (v : Q) :
  0 <= PositionSizer.target_vol self -> 0 < v ->
  0 <= PositionSizer.vol_scalar_of self v.
Proof.
  intros Ht Hv. unfold PositionSizer.vol_scalar_of, py_min.
  assert (H : 0 <= PositionSizer.target_vol self / np_sqrt_252 / v).
  { apply Qle_shift_div_l; [exact Hv|].
    apply Qle_shift_div_l; [apply np_sqrt_252_pos|]. lra. }
  destruct (Qltb 1 _); lra.
Qed.

(** X11. With a non-negative target and capital, a positive price and a
    positive volatility, the sizer returns a non-negative quantity
    whose cost at the given price does not exceed the capital. *)
Theorem quantity_within_capital (self : PositionSizer.t)
        (capital price v : Q) :
  0 <= PositionSizer.target_vol self -> 0 <= capital ->
  0 < price -> 0 < v ->
  exists quantity,
    PositionSizer.calculate_quantity self capital price v = Ok quantity
    /\ (0 <= quantity)%Z
    /\ inject_Z quantity * price <= capital.
Proof.
  intros Ht Hc Hp Hv.
  rewrite calculate_quantity_positive by assumption.
  eexists. split; [reflexivity|].
  pose proof (vol_scalar_of_nonneg self v Ht Hv) as Hs0.
  pose proof (vol_scalar_of_le_1 self v) as Hs1.
  set (s := PositionSizer.vol_scalar_of self v) in *.
  assert (Hx : 0 <= capital * s / price).
  { apply Qle_shift_div_l; [exact Hp|]. nra. }
  split.
  - rewrite <- (Qfloor_Z 0). apply Qfloor_resp_le. exact Hx.
  - pose proof (Qfloor_le (capital * s / price)) as Hf.
    assert (Hm : inject_Z (Qfloor (capital * s / price)) * price
                 <= capital * s / price * price).
    { apply Qmult_le_compat_r; [exact Hf | lra]. }
    assert (Hd : capital * s / price * price == capital * s)
      by (field; lra).
    rewrite Hd in Hm. nra.
Qed.

Lemma quantity_within_capital_witness :
  exists quantity,
    PositionSizer.calculate_quantity (PositionSizer.init 0.20) 1000000 2500
      0.02 = Ok quantity
    /\ (0 <= quantity)%Z
    /\ inject_Z quantity * 2500 <= 1000000.
Proof.
  apply (quantity_within_capital (PositionSizer.init 0.20) 1000000 2500 0.02);
    vm_compute; congruence.
Defined.

(** X12. When the daily volatility is at most the daily target, the
    scalar is 1 and the quantity is the whole capital over the price,
    rounded down. *)
Theorem quiet_asset_gets_whole_capital (self : PositionSizer.t)
        (capital price v : Q) :
  0 < price -> 0 < v ->
  v * np_sqrt_252 <= PositionSizer.target_vol self ->
  PositionSizer.calculate_quantity self capital price v
  = Ok (Qfloor (capital / price)).
Proof.
  intros Hp Hv Hq.
  rewrite calculate_quantity_positive by assumption.
  f_equal. apply Qfloor_comp.
  assert (H1 : 1 <= PositionSizer.target_vol self / np_sqrt_252 / v).
  { apply Qle_shift_div_l; [exact Hv|].
    apply Qle_shift_div_l; [apply np_sqrt_252_pos|]. lra. }
  assert (Hs : PositionSizer.vol_scalar_of self v == 1).
  { unfold PositionSizer.vol_scalar_of. rewrite py_min_Qmin.
    apply Q.min_r. exact H1. }
  rewrite Hs. field. lra.
Qed.

Lemma quiet_asset_gets_whole_capital_witness :
  PositionSizer.calculate_quantity (PositionSizer.init 0.20) 1000000 2500
    0.01 = Ok (Qfloor (1000000 / 2500)).
Proof.
  apply (quiet_asset_gets_whole_capital (PositionSizer.init 0.20) 1000000
           2500 0.01); vm_compute; congruence.
Defined.

(** X13. A volatility that is not positive gives the quantity 0 before
    the price is looked at, so even at price 0; with a positive
    volatility, the price 0 gives no quantity: the call raises. *)
Theorem degenerate_sizing_inputs (self : PositionSizer.t)
        (capital price v : Q) :
  (v <= 0 ->
   PositionSizer.calculate_quantity self capital price v = Ok 0%Z)
  /\ (0 < v -> price == 0 ->
      exists e,
        PositionSizer.calculate_quantity self capital price v = Raise e).
Proof.
  unfold PositionSizer.calculate_quantity. split.
  - intros Hv. apply Qleb_le in Hv. rewrite Hv. reflexivity.
  - intros Hv Hp. apply Qleb_gt in Hv. rewrite Hv.
    unfold py_floordiv. apply Qeq_bool_iff in Hp. rewrite Hp. eauto.
Qed.

Lemma degenerate_sizing_inputs_witness :
  PositionSizer.calculate_quantity (PositionSizer.init 0.20) 1000000 0 0
  = Ok 0%Z
  /\ exists e,
       PositionSizer.calculate_quantity (PositionSizer.init 0.20) 1000000 0
         0.02 = Raise e.
Proof.
  split.
  - apply (proj1 (degenerate_sizing_inputs (PositionSizer.init 0.20)
                    1000000 0 0)).
    vm_compute. congruence.
  - apply (proj2 (degenerate_sizing_inputs (PositionSizer.init 0.20)
                    1000000 0 0.02)); vm_compute; congruence.
Defined.
End SizeBounds.

(** ** The compliance gate, from the caller's side *)

Section ComplianceVerdicts.
Local Open Scope Q_scope.
Import RiskCompliance.

Variable self : RiskCompliance.t.
Variable current_portfolio : portfolio_t.
Variable proposed_trade : trade_t.

Let active_positions : Z :=
  Z.of_nat (size (default (∅ : gmap string Z) (positions current_portfolio))).
Let current_dd : Q := default 0 (current_drawdown current_portfolio).

(** X14. A verdict that allows the trade carries the confirmation
    message and certifies every limit: the trade is not an ENTRY at or
    above the position limit, the drawdown is within its limit and,
    for a trade with a sector and a portfolio with non-zero equity, the
    new exposure of the sector is within the sector limit.  A verdict
    that does not allow it starts with ["REJECTED: "]. *)
Theorem verdict_is_sound (v : verdict) :
  check_trade_permission self current_portfolio proposed_trade = Ok v ->
  (allowed v = true ->
   reason v = [Lit "Compliance Checks Passed"]
   /\ ~ ((max_pos self <= active_positions)%Z
         /\ side proposed_trade = Some "ENTRY"%string)
   /\ current_dd <= max_dd self
   /\ forall target_sector,
        sector proposed_trade = Some target_sector ->
        target_sector <> ""%string ->
        ~ default 1 (total_equity current_portfolio) == 0 ->
        default 0
          (default (∅ : gmap string Q) (sector_allocation current_portfolio)
             !! target_sector)
        + default 0 (capital_impact proposed_trade)
          / default 1 (total_equity current_portfolio)
        <= max_sector self)
  /\ (allowed v = false ->
      exists s rest,
        reason v = Lit s :: rest
        /\ String.prefix "REJECTED: " s = true).
Proof.
  unfold check_trade_permission. fold active_positions.
  destruct (entry_at_limit self active_positions proposed_trade)
    as [[|]|] eqn:E1; cbn; [| |discriminate].
  { intros [= <-]. cbn. split; [discriminate|]. intros _.
    eexists _, _. split; reflexivity. }
  assert (Hnot : ~ ((max_pos self <= active_positions)%Z
                    /\ side proposed_trade = Some "ENTRY"%string)).
  { intros [Hn Hs].
    pose proof (entry_at_limit_true self current_portfolio proposed_trade
                  Hn Hs) as Ht.
    unfold active_positions in E1. rewrite Ht in E1. discriminate. }
  fold current_dd. destruct (Qltb (max_dd self) current_dd) eqn:E2.
  { intros [= <-]. cbn. split; [discriminate|]. intros _.
    eexists _, _. split; reflexivity. }
  apply Qltb_ge in E2.
  destruct (sector proposed_trade) as [s|] eqn:Es; cbn.
  - destruct (String.eqb_spec s "") as [->|Hne].
    + intros [= <-]. cbn. split; [|discriminate]. intros _.
      repeat apply conj; auto. intros ? [= <-] Hc. congruence.
    + unfold py_div.
      destruct (Qeq_bool (default 1 (total_equity current_portfolio)) 0)
        eqn:E0; cbn; [discriminate|].
      destruct (Qltb (max_sector self) _) eqn:E3.
      * intros [= <-]. cbn. split; [discriminate|]. intros _.
        eexists _, _. split; reflexivity.
      * intros [= <-]. cbn. split; [|discriminate]. intros _.
        apply Qltb_ge in E3. repeat apply conj; auto.
        intros ? [= <-] _ _. exact E3.
  - intros [= <-]. cbn. split; [|discriminate]. intros _.
    repeat apply conj; auto. intros ? [=].
Qed.

(** X15. The ['side'] key of the trade is read only at or above the
    position limit: there a trade without it raises [KeyError]; below
    the limit the verdict is the same whatever the key holds, present
    or not. *)
Theorem side_read_only_at_limit :
  ((max_pos self <= active_positions)%Z ->
   side proposed_trade = None ->
   check_trade_permission self current_portfolio proposed_trade
   = Raise KeyError)
  /\ ((active_positions < max_pos self)%Z ->
      forall other_side,
        check_trade_permission self current_portfolio
          (mkTrade other_side (sector proposed_trade)
                   (capital_impact proposed_trade))
        = check_trade_permission self current_portfolio proposed_trade).
Proof.
  unfold check_trade_permission, entry_at_limit. fold active_positions.
  split.
  - intros Hn Hs. apply Z.leb_le in Hn. rewrite Hn, Hs. reflexivity.
  - intros Hn other. apply Z.leb_gt in Hn. rewrite Hn. reflexivity.
Qed.
End ComplianceVerdicts.

Section ComplianceVerdictExamples.
Local Open Scope Q_scope.
Import RiskCompliance.

Lemma verdict_is_sound_witness :
  exists v,
    check_trade_permission (init (mkConfig None None None))
      (mkPortfolio (Some ∅) (Some 0.1) (Some {[ "Tech"%string := 0.1 ]})
                   (Some 1000000))
      (mkTrade (Some "ENTRY"%string) (Some "Tech"%string) (Some 100000))
    = Ok v
    /\ reason v = [Lit "Compliance Checks Passed"].
Proof.
  eexists. split; [vm_compute; reflexivity|].
  refine (proj1 (proj1 (verdict_is_sound (init (mkConfig None None None))
             (mkPortfolio (Some ∅) (Some 0.1)
                          (Some {[ "Tech"%string := 0.1 ]}) (Some 1000000))
             (mkTrade (Some "ENTRY"%string) (Some "Tech"%string)
                      (Some 100000)) _ _) _)).
  - vm_compute. reflexivity.
  - reflexivity.
Defined.

Lemma side_read_only_at_limit_witness :
  check_trade_permission (init (mkConfig None None None))
    (mkPortfolio (Some ten_positions) None None None)
    (mkTrade None None None)
  = Raise KeyError.
Proof.
  apply (proj1 (side_read_only_at_limit (init (mkConfig None None None))
                  (mkPortfolio (Some ten_positions) None None None)
                  (mkTrade None None None))).
  - vm_compute. congruence.
  - reflexivity.
Defined.
End ComplianceVerdictExamples.

(** ** Records of the ledger *)

Section LedgerRecords.
Local Open Scope Q_scope.

(** X16. A trade with a non-zero quantity, or with an entry price that
    is not positive, is logged: the ledger grows by exactly one record
    at its end and keeps the earlier ones; the record holds the
    arguments; its gross PnL is (exit - entry) * quantity for the side
    ["LONG"] and (entry - exit) * quantity for any other side, its net
    PnL the gross PnL less the fees, and for a positive entry price its
    return is the net PnL over entry price times quantity. *)
Theorem log_trade_record (self : TradeLedger.t) (ticker : string)
        (entry_date exit_date : option datetime) (entry_price exit_price : Q)
        (quantity : Z) (side : string) (fees : Q) :
  quantity <> 0%Z \/ entry_price <= 0 ->
  exists r,
    TradeLedger.log_trade self ticker entry_date exit_date entry_price
      exit_price quantity side fees
    = Ok (TradeLedger.mk (TradeLedger.trades self ++ [r]))
    /\ (TradeRecord.ticker r, TradeRecord.side r, TradeRecord.entry_date r,
        TradeRecord.exit_date r, TradeRecord.entry_price r,
        TradeRecord.exit_price r, TradeRecord.quantity r, TradeRecord.fees r)
       = (ticker, side, entry_date, exit_date, entry_price, exit_price,
          quantity, fees)
    /\ (side = "LONG"%string ->
        TradeRecord.gross_pnl r
        = (exit_price - entry_price) * inject_Z quantity)
    /\ (side <> "LONG"%string ->
        TradeRecord.gross_pnl r
        = (entry_price - exit_price) * inject_Z quantity)
    /\ TradeRecord.net_pnl r = TradeRecord.gross_pnl r - fees
    /\ (0 < entry_price ->
        TradeRecord.return_pct r * (entry_price * inject_Z quantity)
        == TradeRecord.net_pnl r)
    /\ (entry_price <= 0 -> TradeRecord.return_pct r = 0).
Proof.
  intros Hok. unfold TradeLedger.log_trade.
  destruct (Qltb 0 entry_price) eqn:E.
  - apply Qltb_lt in E.
    assert (Hq : quantity <> 0%Z) by (destruct Hok as [H|H]; [exact H|lra]).
    assert (Hden : ~ entry_price * inject_Z quantity == 0).
    { intros H0. apply Qmult_integral in H0. destruct H0 as [H0|H0]; [lra|].
      apply Hq. unfold Qeq in H0. cbn in H0. lia. }
    unfold py_div. apply Qeq_bool_false in Hden. rewrite Hden. cbn.
    apply Qeq_bool_false in Hden.
    eexists. split; [reflexivity|]. cbn.
    repeat apply conj; try reflexivity.
    + intros ->. reflexivity.
    + intros Hs. apply String.eqb_neq in Hs. rewrite Hs. reflexivity.
    + intros _. field. split; [|lra].
      intros H0. apply Hq. unfold Qeq in H0. cbn in H0. lia.
    + intros Hle. lra.
  - apply Qltb_ge in E. cbn.
    eexists. split; [reflexivity|]. cbn.
    repeat apply conj; try reflexivity.
    + intros ->. reflexivity.
    + intros Hs. apply String.eqb_neq in Hs. rewrite Hs. reflexivity.
    + intros Hlt. lra.
Qed.

Lemma log_trade_record_witness :
  exists r,
    TradeLedger.log_trade TradeLedger.init "RELIANCE.NS" (Some 1%Z)
      (Some 2%Z) 100 90 10 "SHORT" 3
    = Ok (TradeLedger.mk [r])
    /\ TradeRecord.gross_pnl r = (100 - 90) * inject_Z 10.
Proof.
  destruct (log_trade_record TradeLedger.init "RELIANCE.NS" (Some 1%Z)
              (Some 2%Z) 100 90 10 "SHORT" 3)
    as (r & Hrun & _ & _ & Hshort & _).
  - left. discriminate.
  - exists r. split; [exact Hrun|]. apply Hshort. discriminate.
Defined.
End LedgerRecords.

(** ** The equity curve *)

Section EquityCurve.
Local Open Scope Q_scope.
Import BacktestEngine.






End EquityCurve.

(** ** Positions over a run *)

Section LongOnly.
Local Open Scope Q_scope.
Import BacktestEngine.

Lemma handle_fill_position (self self' : BacktestEngine.t) (f : Order.t) :
  _handle_fill self f = Ok self' ->
  (Order.side f = "BUY"%string ->
   holdings self' = (holdings self + Order.quantity f)%Z
   /\ is_Some (last_entry_price self')
   /\ is_Some (last_entry_date self'))
  /\ (Order.side f = "SELL"%string ->
      holdings self' = (holdings self - Order.quantity f)%Z
      /\ last_entry_price self' = last_entry_price self
      /\ last_entry_date self' = last_entry_date self).
Proof.
  unfold _handle_fill.
  destruct (String.eqb_spec (Order.side f) "BUY") as [Eb|Eb].
  - intros [= <-]. cbn. split; [intros _|intros Hs; congruence].
    repeat split; eexists; reflexivity.
  - destruct (String.eqb_spec (Order.side f) "SELL") as [Es|Es].
    + destruct (getattr (last_entry_date self)); cbn; [|discriminate].
      destruct (getattr (last_entry_price self)); cbn; [|discriminate].
      destruct (TradeLedger.log_trade _ _ _ _ _ _ _ _ _); cbn;
        [|discriminate].
      intros [= <-]. cbn. split; [intros Hb; congruence|]. auto.
    + intros _. split; intros; congruence.
Qed.
















End LongOnly.

(** ** Fills before signals *)

Section FillsBeforeSignals.
Local Open Scope Q_scope.
Import BacktestEngine.


End FillsBeforeSignals.

(** ** Entries and the compliance gate *)

Section Entries.
Local Open Scope Q_scope.
Import BacktestEngine.

(** The check as the engine calls it passes whenever the capital impact
    is within a positive equity. *)
Lemma engine_check_passes (h : Z) (equity impact : Q) :
  0 < equity -> impact <= equity ->
  NumpyOperands.check_trade_permission
    (RiskCompliance.init
       (RiskCompliance.mkConfig (Some 0.20) (Some 1.0) None))
    (RiskCompliance.mkPortfolio
       (Some (if (0 <? h)%Z then {[ "dummy"%string := 1%Z ]} else ∅))
       (Some 0) None (Some equity))
    (RiskCompliance.mkTrade (Some "ENTRY"%string) (Some "Tech"%string)
       (Some impact))
  = Ok (RiskCompliance.mkVerdict true RiskCompliance.passed_msg).
Proof.
  intros He Hi.
  assert (Hsize : (10 <=? Z.of_nat
                     (size (if (0 <? h)%Z
                            then ({[ "dummy"%string := 1%Z ]} : gmap string Z)
                            else ∅)))%Z = false).
  { destruct (0 <? h)%Z.
    - rewrite map_size_singleton. reflexivity.
    - rewrite map_size_empty. reflexivity. }
  assert (Hdd : Qltb 0.20 0 = false) by reflexivity.
  assert (E0 : Qeq_bool equity 0 = false) by (apply Qeq_bool_false; lra).
  assert (E1 : Qltb 1.0 (0 + impact / equity) = false).
  { apply Qltb_ge.
    assert (impact / equity <= 1) by (apply Qle_shift_div_r; lra). lra. }
  unfold NumpyOperands.check_trade_permission, RiskCompliance.entry_at_limit,
    np_div.
  cbn -[size lookup Qltb Qeq_bool Z.leb Qdiv Qplus].
  rewrite Hsize. cbn -[size lookup Qltb Qeq_bool Z.leb Qdiv Qplus].
  rewrite Hdd, lookup_empty, E0.
  cbn -[size lookup Qltb Qeq_bool Z.leb Qdiv Qplus].
  rewrite E1. reflexivity.
Qed.

(** X19. As the engine is configured, the compliance check never stops
    an entry: with a positive equity and price, the entry places a
    market BUY for the sized quantity exactly when that quantity is
    positive, and the quantity costs no more than the equity. *)
Theorem entry_is_never_blocked (self : BacktestEngine.t) (price : Q)
        (row : Row.t) (side : string) (w : World) :
  compliance self
  = RiskCompliance.init
      (RiskCompliance.mkConfig (Some 0.20) (Some 1.0) None) ->
  0 <= PositionSizer.target_vol (sizer self) ->
  0 < equity self -> 0 < price ->
  exists qty,
    PositionSizer.calculate_quantity (sizer self) (equity self) price 0.015
    = Ok qty
    /\ (0 <= qty)%Z
    /\ inject_Z qty * price <= equity self
    /\ _place_entry_order self price row side w
       = if (0 <? qty)%Z
         then Ok (set_oms self
                    (OrderManager.mk
                       (OrderManager.open_orders (oms self)
                        ++ [Order.mk (ticker self) qty "BUY" "MARKET" None
                                     (uuids w 0%nat) "OPEN" 0 None 0])
                       (OrderManager.filled_orders (oms self))
                       (OrderManager.slippage_engine (oms self))
                       (OrderManager.cost_engine (oms self))),
                  mkWorld (clock w) (fun k => uuids w (S k)))
         else Ok (self, w).
Proof.
  intros Hcfg Ht He Hp.
  destruct (quantity_within_capital (sizer self) (equity self) price 0.015)
    as (qty & Hq & Hq0 & Hcap); try assumption; [lra | reflexivity |].
  exists qty. split; [exact Hq|]. split; [exact Hq0|]. split; [exact Hcap|].
  unfold _place_entry_order, bind, lift, ret.
  rewrite np_calculate_quantity_agrees by lra.
  rewrite Hq, Hcfg, (engine_check_passes (holdings self) (equity self)
                       (inject_Z qty * price) He Hcap).
  cbn [RiskCompliance.allowed andb].
  destruct (0 <? qty)%Z eqn:E; [|reflexivity].
  apply Z.ltb_lt in E. cbn.
  rewrite place_order_positive by exact E. reflexivity.
Qed.

Lemma entry_is_never_blocked_witness :
  exists qty,
    PositionSizer.calculate_quantity (PositionSizer.init 0.20) 1000000 100
      0.015 = Ok qty
    /\ (0 <= qty)%Z
    /\ inject_Z qty * 100 <= 1000000.
Proof.
  destruct (entry_is_never_blocked
              (mark_to_market (init "RELIANCE.NS" 1000000)
                 (Row.mk 1%Z 100 100 100 100 1%Z))
              100 (Row.mk 1%Z 100 100 100 100 1%Z) "LONG" sample_world)
    as (qty & Hq & Hq0 & Hcap & _).
  - reflexivity.
  - vm_compute. congruence.
  - vm_compute. reflexivity.
  - vm_compute. reflexivity.
  - exists qty. auto.
Defined.
End Entries.

(** ** Forensic scores and the shortlist *)

Section Forensics.
Local Open Scope Q_scope.
Import ForensicAccountant.

Ltac split_lookups fin :=
  repeat match goal with
         | |- context [fin !! ?k] => destruct (fin !! k) eqn:?; cbn [rbind]
         end.

(** X20. The F-score never raises and lies between 0 and 9; when any
    one of the fourteen keys it reads is missing the score is 0,
    whatever the other entries say. *)
Theorem f_score_range (financials : gmap string Q) :
  (exists score,
      calculate_piotroski_f_score financials = Ok score
      /\ (0 <= score <= 9)%Z)
  /\ (forall k, In k piotroski_keys -> financials !! k = None ->
                calculate_piotroski_f_score financials = Ok 0%Z).
Proof.
  unfold calculate_piotroski_f_score, piotroski_body, getitem. split.
  - split_lookups financials;
      try (exists 0%Z; split; [reflexivity | lia]).
    eexists. split; [reflexivity|].
    repeat match goal with
           | |- context [if ?c then 1%Z else 0%Z] => destruct c
           end; lia.
  - intros k Hk Hnone. cbn in Hk.
    repeat (destruct Hk as [<- | Hk]; [rewrite Hnone; cbn [rbind];
      split_lookups financials; reflexivity|]).
    contradiction.
Qed.

Lemma f_score_range_witness :
  calculate_piotroski_f_score
    (delete "prev_roa"%string UniverseSelector.mock_financials) = Ok 0%Z.
Proof.
  apply (proj2 (f_score_range
                  (delete "prev_roa"%string UniverseSelector.mock_financials))
           "prev_roa"%string).
  - cbn. auto 10.
  - apply lookup_delete_eq.
Defined.

Lemma beneish_missing_key (financials : gmap string Q) (k : string) :
  In k beneish_keys -> financials !! k = None ->
  calculate_beneish_m_score financials = 0.
Proof.
  intros Hk Hnone.
  unfold calculate_beneish_m_score, beneish_body, getitem. cbn in Hk.
  repeat (destruct Hk as [<- | Hk];
    [rewrite Hnone; cbn [rbind]; split_lookups financials;
     repeat match goal with
            | |- context [py_div ?a ?b] => destruct (py_div a b); cbn [rbind]
            end; reflexivity|]).
  contradiction.
Qed.

(** X21. When a key that the M-score reads is missing, the M-score
    falls back to 0, which is above the threshold -1.78: the health
    report says POSSIBLE_FRAUD, with M-score 0, whatever the F-score. *)
Theorem missing_data_reads_as_fraud (tk : string)
        (financials : gmap string Q) (k : string) :
  In k beneish_keys -> financials !! k = None ->
  exists r,
    analyze_health tk financials = Ok r
    /\ ticker r = tk
    /\ verdict r = "POSSIBLE_FRAUD"%string
    /\ m_score r == 0.
Proof.
  intros Hk Hnone. unfold analyze_health.
  destruct (proj1 (f_score_range financials)) as (score & -> & _).
  cbn [rbind]. rewrite (beneish_missing_key financials k Hk Hnone).
  eexists. split; [reflexivity|]. cbn. repeat split.
Qed.

Lemma missing_data_reads_as_fraud_witness :
  exists r,
    analyze_health "TCS.NS"
      (delete "leverage"%string UniverseSelector.mock_financials) = Ok r
    /\ ticker r = "TCS.NS"%string
    /\ verdict r = "POSSIBLE_FRAUD"%string
    /\ m_score r == 0.
Proof.
  apply (missing_data_reads_as_fraud "TCS.NS"
           (delete "leverage"%string UniverseSelector.mock_financials)
           "leverage"%string).
  - cbn. auto 10.
  - apply lookup_delete_eq.
Defined.
End Forensics.

Section Shortlist.
Local Open Scope Q_scope.
Import UniverseSelector.

Lemma mock_company_passes (tk : string) :
  exists r,
    ForensicAccountant.analyze_health tk mock_financials = Ok r
    /\ ForensicAccountant.verdict r = "PASS"%string
    /\ ForensicAccountant.f_score r = 9%Z.
Proof. eexists. split; [vm_compute; reflexivity|]. split; reflexivity. Qed.

Lemma audit_loop_keeps_all (stock_list : list string) :
  forall shortlist,
    audit_loop stock_list shortlist = Ok (shortlist ++ stock_list).
Proof.
  induction stock_list as [|tk rest IH]; intros shortlist; cbn [audit_loop].
  - rewrite app_nil_r. reflexivity.
  - destruct (mock_company_passes tk) as (r & -> & Hv & _).
    cbn [rbind]. rewrite Hv. cbn. rewrite IH, <- app_assoc. reflexivity.
Qed.

(** X22. The shortlist is all or nothing: empty when the macro fetch
    succeeds with a level above 22, and otherwise, also when the fetch
    fails, the whole stock list in its order. *)
Theorem shortlist_all_or_nothing (stock_list : list string)
        (fetched : result Q) :
  (forall v, fetched = Ok v -> 22 < v ->
             generate_shortlist stock_list fetched = Ok [])
  /\ (forall v, fetched = Ok v -> v <= 22 ->
                generate_shortlist stock_list fetched = Ok stock_list)
  /\ (forall e, fetched = Raise e ->
                generate_shortlist stock_list fetched = Ok stock_list).
Proof.
  unfold generate_shortlist, MacroRegime.get_regime.
  split; [|split].
  - intros v -> Hv. apply Qltb_lt in Hv. rewrite Hv. reflexivity.
  - intros v -> Hv. apply Qltb_ge in Hv. rewrite Hv.
    destruct (Qltb v 12); cbn; apply audit_loop_keeps_all.
  - intros e ->. cbn. apply audit_loop_keeps_all.
Qed.

Lemma shortlist_all_or_nothing_witness :
  generate_shortlist ["RELIANCE.NS"; "TCS.NS"]%string (Ok 25) = Ok []
  /\ generate_shortlist ["RELIANCE.NS"; "TCS.NS"]%string (Raise ValueError)
     = Ok ["RELIANCE.NS"; "TCS.NS"]%string.
Proof.
  destruct (shortlist_all_or_nothing ["RELIANCE.NS"; "TCS.NS"]%string (Ok 25))
    as (H1 & _).
  destruct (shortlist_all_or_nothing ["RELIANCE.NS"; "TCS.NS"]%string
              (Raise ValueError)) as (_ & _ & H3).
  split.
  - apply (H1 25); [reflexivity | vm_compute; reflexivity].
  - apply (H3 ValueError). reflexivity.
Defined.
End Shortlist.

(** ** Cash over a round trip *)

Section RoundTripCash.
Local Open Scope Q_scope.
Import BacktestEngine.

(** X23. A BUY fill followed by a SELL fill of the same non-zero
    quantity is handled without an exception from any state: the
    holding is back where it was, one record is logged with the two
    fill prices, and the cash has changed by (exit - entry) * quantity
    less the fees of both fills, that is by the net PnL of the record
    less the fees of the BUY fill. *)
Theorem round_trip_cash (self : BacktestEngine.t) (b s : Order.t) :
  Order.side b = "BUY"%string ->
  Order.side s = "SELL"%string ->
  Order.quantity s = Order.quantity b ->
  Order.quantity b <> 0%Z ->
  exists self1 self2 r,
    _handle_fill self b = Ok self1
    /\ _handle_fill self1 s = Ok self2
    /\ holdings self2 = holdings self
    /\ TradeLedger.trades (ledger self2)
       = TradeLedger.trades (ledger self) ++ [r]
    /\ TradeRecord.entry_price r = Order.fill_price b
    /\ TradeRecord.exit_price r = Order.fill_price s
    /\ cash self2 - cash self
       == (Order.fill_price s - Order.fill_price b)
          * inject_Z (Order.quantity b)
          - Order.fees b - Order.fees s
    /\ cash self2 - cash self == TradeRecord.net_pnl r - Order.fees b.
Proof.
  intros Hb Hs Hq Hq0.
  destruct (_handle_fill self b) as [self1|e] eqn:H1.
  2: { unfold _handle_fill in H1. rewrite Hb in H1. discriminate. }
  destruct (_handle_fill self1 s) as [self2|e] eqn:H2.
  2: { exfalso. pose proof H1 as H1'.
       unfold _handle_fill in H1'. rewrite Hb in H1'. cbn in H1'.
       injection H1' as <-.
       unfold _handle_fill in H2. rewrite Hs in H2. cbn in H2.
       destruct (TradeLedger.log_trade _ _ _ _ _ _ _ _ _) eqn:Hl;
         [discriminate|].
       apply log_trade_raises in Hl. destruct Hl as (_ & _ & Hz).
       congruence. }
  destruct (handle_buy_then_sell self self1 self2 b s Hb Hs H1 H2)
    as (r & Htr & _ & Hen & Hex & _ & Hnet & Hcash).
  destruct (proj1 (handle_fill_position _ _ _ H1) Hb) as (Hh1 & _).
  destruct (proj2 (handle_fill_position _ _ _ H2) Hs) as (Hh2 & _).
  exists self1, self2, r.
  repeat apply conj; auto.
  - rewrite Hh2, Hh1, Hq. lia.
  - rewrite Hcash, Hq. ring.
  - rewrite Hcash, Hnet, Hq. ring.
Qed.

Lemma round_trip_cash_witness :
  exists self1 self2 r,
    _handle_fill (init "RELIANCE.NS" 1000000)
      (Order.set_filled sample_stop_buy 100 3 1%Z) = Ok self1
    /\ _handle_fill self1 (Order.set_filled sample_market_sell 110 4 2%Z)
       = Ok self2
    /\ holdings self2 = 0%Z
    /\ cash self2 - 1000000 == TradeRecord.net_pnl r - 3.
Proof.
  destruct (round_trip_cash (init "RELIANCE.NS" 1000000)
              (Order.set_filled sample_stop_buy 100 3 1%Z)
              (Order.set_filled sample_market_sell 110 4 2%Z))
    as (self1 & self2 & r & H1 & H2 & Hh & _ & _ & _ & _ & Hc);
    try reflexivity; try discriminate.
  exists self1, self2, r. auto.
Defined.
End RoundTripCash.
